(** * Stock sentiment pipeline: a shallow embedding and its properties

    The development follows the Python sources:
    - [api/src/data/models.py]      (class [SentimentScore]),
    - [api/src/data/schema.py]      ([validate_schema_compatibility]),
    - [api/src/service.py]          (class [SentimentService]),
    - [processing/src/bigquery.py]  (class [BigQueryClient]),
    - [processing/src/sentiment.py] (class [SentimentAnalyzer]),
    - [processing/src/pipeline.py]  (class [SentimentPipeline]),
    - [api/src/server.py]           ([GetStockSentiment]),
    - [ingestion/src/fetcher.py]    ([_extract_ticker]).

    Conventions of the embedding:
    - a Python value that travels in a dictionary is a [pyval], and a
      dictionary is a [gmap string pyval]; a [float] is a binary64 float
      of the kernel, an [int] is a [Z], a [str] is a [string];
    - the log and the calls made to the BigQuery client are effects,
      threaded through the state monad [M] over a [world];
    - the BigQuery client, the lexicon scorer, the date parser, the
      settings and the enum constants of [sentiment_pb2] are parameters;
    - a generator is modelled by the list of what it yields when it is
      run to its end;
    - the exceptions the code catches ([GoogleAPIError] around the store
      calls, [Exception] around the scorer) are outcomes of the
      parameters; the Prometheus metrics are left out. *)

From Stdlib Require Import ZArith NArith String Ascii List PrimFloat.
From stdpp Require Import base option list gmap strings.

Local Open Scope string_scope.
Local Open Scope list_scope.
Local Open Scope Z_scope.

(** ** Python values *)

Inductive pyval :=
| VNone
| VBool (b : bool)
| VInt (z : Z)
| VFloat (f : float)
| VStr (s : string)
| VDatetime (epoch : Z).

Abbreviation dict := (gmap string pyval).

(** [bool(v)]: the truth value Python gives an object. *)
Definition truthy (v : pyval) : bool :=
  match v with
  | VNone => false
  | VBool b => b
  | VInt z => negb (z =? 0)
  | VFloat f => negb (PrimFloat.eqb f 0%float)
  | VStr s => negb (String.eqb s "")
  | VDatetime _ => true
  end.

(** [len(s)] of a [str]. *)
Definition len (s : string) : Z := Z.of_nat (String.length s).

(** [c.isalnum()] for one character.  A character of a [string] stands for
    the code point of the same number (U+0000 to U+00FF); the table is the
    one of CPython for that range. *)
Definition char_isalnum (c : ascii) : bool :=
  let n := Z.of_N (N_of_ascii c) in
  ((48 <=? n) && (n <=? 57)) || ((65 <=? n) && (n <=? 90)) ||
  ((97 <=? n) && (n <=? 122)) ||
  (n =? 170) || (n =? 178) || (n =? 179) || (n =? 181) || (n =? 185) ||
  (n =? 186) || ((188 <=? n) && (n <=? 190)) ||
  ((192 <=? n) && (n <=? 214)) || ((216 <=? n) && (n <=? 246)) ||
  ((248 <=? n) && (n <=? 255)).

Fixpoint all_alnum (s : string) : bool :=
  match s with
  | EmptyString => true
  | String c rest => char_isalnum c && all_alnum rest
  end.

(** [s.isalnum()]: every character is alphanumeric and there is at least
    one character. *)
Definition isalnum (s : string) : bool :=
  match s with
  | EmptyString => false
  | _ => all_alnum s
  end.

(** [-1.0 <= x <= 1.0] on floats; false on NaN, as in Python. *)
Definition float_in_unit_range (x : float) : bool :=
  PrimFloat.leb (-1)%float x && PrimFloat.leb x 1%float.

(** ** Effects: the log and the calls to the BigQuery client *)

Inductive level := DEBUG | INFO | WARNING | ERROR.

(** A log record keeps the level and the text of the message up to its
    first interpolated value; the values an f-string interpolates are not
    rendered. *)
Record log_entry := Log { log_level : level; log_text : string }.

(** The statements the code sends to BigQuery, by the function that builds
    them. *)
Inductive sql :=
| SqlGetStockSentiment
| SqlStreamStockSentiment
| SqlQueryData.

Inductive store_call :=
| CallQuery (q : sql) (table : string) (params : list (string * pyval))
| CallInsertRowsJson (table : string) (rows : list dict).

Record world := World { w_log : list log_entry; w_calls : list store_call }.

Definition M (A : Type) : Type := world -> A * world.

#[global] Instance M_ret : MRet M := fun A (x : A) (w : world) => (x, w).
#[global] Instance M_bind : MBind M :=
  fun A B (f : A -> M B) (m : M A) (w : world) =>
    let '(a, w') := m w in f a w'.

Definition log (l : level) (text : string) : M unit :=
  fun w => (tt, World (w_log w ++ [Log l text]) (w_calls w)).

Definition record_call (c : store_call) : M unit :=
  fun w => (tt, World (w_log w) (w_calls w ++ [c])).

Definition history : M (list store_call) := fun w => (w_calls w, w).

Definition world0 : world := World [] [].

(** ** models.py *)

(** [not ticker or not ticker.isalnum() or len(ticker) > 5]: the test on a
    ticker that [SentimentScore.__init__] and both service entry points
    write out. *)
Definition ticker_rejected (ticker : string) : bool :=
  negb (truthy (VStr ticker)) || negb (isalnum ticker) || (5 <? len ticker).

Module SentimentScore.

Record t := Make {
  ticker : string;
  sentiment_score : float;
  timestamp : Z;
  data_point_count : Z;
  error : option string
}.

(** [self.error = e] *)
Definition set_error (self : t) (e : string) : t :=
  Make (ticker self) (sentiment_score self) (timestamp self)
       (data_point_count self) (Some e).

(** The explicit [__init__] of the class body.  [@dataclass] never replaces
    an [__init__] that the class itself defines, so this function is the
    whole of a call [SentimentScore(...)]. *)
Definition __init__ (ticker : string) (sentiment_score : float)
    (timestamp data_point_count : Z) (error : option string) : M t :=
  let self := Make ticker sentiment_score timestamp data_point_count error in
  if ticker_rejected ticker
  then
    log WARNING "Invalid ticker in SentimentScore: " ;;
    mret (set_error self "Ticker must be a non-empty string (max 5 characters)")
  else mret self.

(** [__post_init__] as written: four independent [if] statements, each of
    which assigns [self.error].  Only an [__init__] generated by
    [@dataclass] would call it; the explicit [__init__] above does not.
    The fields are typed, so the [isinstance] tests of the source hold. *)
Definition __post_init__ (self : t) : M t :=
  self ← (if negb (truthy (VStr (ticker self))) || (5 <? len (ticker self))
          then
            let self := set_error self "Ticker must be a non-empty string (max 5 characters)" in
            log WARNING "Invalid ticker in SentimentScore: " ;; mret self
          else mret self) ;
  self ← (if negb (float_in_unit_range (sentiment_score self))
          then
            let self := set_error self "Sentiment score must be between -1.0 and 1.0" in
            log WARNING "Invalid sentiment_score: " ;; mret self
          else mret self) ;
  self ← (if timestamp self <? 0
          then
            let self := set_error self "Timestamp must be a non-negative integer" in
            log WARNING "Invalid timestamp: " ;; mret self
          else mret self) ;
  if data_point_count self <? 0
  then
    let self := set_error self "Data point count must be a non-negative integer" in
    log WARNING "Invalid data_point_count: " ;; mret self
  else mret self.

Definition is_valid (self : t) : bool :=
  match error self with None => true | Some _ => false end.

(** [asdict(self)] *)
Definition to_dict (self : t) : dict :=
  {[ "ticker" := VStr (ticker self);
     "sentiment_score" := VFloat (sentiment_score self);
     "timestamp" := VInt (timestamp self);
     "data_point_count" := VInt (data_point_count self);
     "error" := match error self with Some e => VStr e | None => VNone end ]}.

(** The readings of a dictionary value at the type a field is annotated
    with. *)
Definition as_str (v : pyval) : option string :=
  match v with VStr s => Some s | _ => None end.
Definition as_float (v : pyval) : option float :=
  match v with VFloat f => Some f | _ => None end.
Definition as_int (v : pyval) : option Z :=
  match v with VInt z => Some z | _ => None end.
Definition as_optional_str (v : pyval) : option (option string) :=
  match v with VStr s => Some (Some s) | VNone => Some None | _ => None end.

(** [from_dict]: [cls(ticker=data.get("ticker", ""), ...)].  The record
    of the embedding is typed, so the result is [None] when an entry holds
    a value of another type than the field's annotation (the source
    would pass it on as it is); every statement about [from_dict] is
    about dictionaries for which it is [Some]. *)
Definition from_dict (data : dict) : M (option t) :=
  match as_str (default (VStr "") (data !! "ticker")),
        as_float (default (VFloat 0%float) (data !! "sentiment_score")),
        as_int (default (VInt 0) (data !! "timestamp")),
        as_int (default (VInt 0) (data !! "data_point_count")),
        as_optional_str (default VNone (data !! "error")) with
  | Some ticker, Some sentiment_score, Some timestamp, Some data_point_count, Some error =>
      self ← __init__ ticker sentiment_score timestamp data_point_count error ;
      mret (Some self)
  | _, _, _, _, _ => mret None
  end.

End SentimentScore.

(** ** The collaborators the code is handed *)

(** [config.settings] *)
Record settings := Settings {
  GCP_PROJECT_ID : string;
  BQ_DATASET : string;
  SENTIMENT_TABLE : string
}.

(** The enum constants of the generated module [sentiment_pb2], which is
    not part of the sources: they are parameters of the model. *)
Record sentiment_pb2 := Pb2 {
  TIMEFRAME_1H : Z; TIMEFRAME_1D : Z; TIMEFRAME_1W : Z;
  INTERVAL_1M : Z; INTERVAL_1H : Z; INTERVAL_1D : Z
}.

(** [google.protobuf.Timestamp] *)
Record Timestamp := MkTimestamp { seconds : Z; nanos : Z }.

(** A row of one of the two aggregate queries of service.py. *)
Record agg_row := AggRow {
  agg_sentiment_score : float;
  agg_timestamp : Z;
  agg_data_point_count : Z
}.

(** A row of the range query of bigquery.py. *)
Record data_row := DataRow {
  row_ticker : string;
  row_sentiment_score : float;
  row_timestamp : Z;
  row_data_point_count : Z;
  row_source : pyval
}.

(** What [client.query(...).result()] does when it is iterated: it yields
    [rows] and then, when [fault] is [Some e], raises a [GoogleAPIError]
    whose text is [e]. *)
Inductive reply (R : Type) := Reply (rows : list R) (fault : option string).
Arguments Reply {R} rows fault.

(** What [client.insert_rows_json] does: it returns the list of row errors
    or raises a [GoogleAPIError]. *)
Inductive insert_reply :=
| InsertErrors (errors : list dict)
| InsertRaises (e : string).

(** The BigQuery client, an external collaborator.  Its answers may depend
    on the calls it has received so far. *)
Record bigquery_client := BigQuery {
  bq_aggregate : list store_call -> sql -> string -> list (string * pyval) -> reply agg_row;
  bq_select : list store_call -> sql -> string -> list (string * pyval) -> reply data_row;
  bq_insert : list store_call -> string -> list dict -> insert_reply
}.

Definition query_aggregate (bq : bigquery_client) (q : sql) (table : string)
    (params : list (string * pyval)) : M (reply agg_row) :=
  h ← history ;
  record_call (CallQuery q table params) ;;
  mret (bq_aggregate bq h q table params).

Definition query_select (bq : bigquery_client) (q : sql) (table : string)
    (params : list (string * pyval)) : M (reply data_row) :=
  h ← history ;
  record_call (CallQuery q table params) ;;
  mret (bq_select bq h q table params).

Definition insert_rows_json (bq : bigquery_client) (table : string)
    (rows : list dict) : M insert_reply :=
  h ← history ;
  record_call (CallInsertRowsJson table rows) ;;
  mret (bq_insert bq h table rows).

(** A blob of the raw-data bucket: its name, and what
    [download_as_text] gives ([None] when it raises a [GoogleAPIError]). *)
Record blob := Blob { blob_name : string; blob_text : option string }.

(** The outcome of [TextBlob(text).sentiment.polarity]: a float, or an
    exception raised inside the library. *)
Inductive scored := Polarity (p : float) | ScorerRaised (e : string).

(** ** schema.py *)

Definition is_str (v : pyval) : bool :=
  match v with VStr _ => true | _ => false end.

(** [isinstance(v, int)]; [bool] is a subclass of [int]. *)
Definition is_int (v : pyval) : bool :=
  match v with VInt _ | VBool _ => true | _ => false end.

(** [isinstance(v, (int, float))] *)
Definition is_int_or_float (v : pyval) : bool :=
  match v with VInt _ | VBool _ | VFloat _ => true | _ => false end.

(** [-1.0 <= v <= 1.0] for a number [v]. *)
Definition num_in_unit_range (v : pyval) : bool :=
  match v with
  | VInt z => (-1 <=? z) && (z <=? 1)
  | VBool _ => true
  | VFloat f => float_in_unit_range f
  | _ => false
  end.

(** [v < 0] for an integer [v]. *)
Definition int_negative (v : pyval) : bool :=
  match v with VInt z => z <? 0 | _ => false end.

(** [len(v) > 5] for a string [v]. *)
Definition str_longer_than_5 (v : pyval) : bool :=
  match v with VStr s => 5 <? len s | _ => false end.

Definition validate_schema_compatibility (data : dict) : M bool :=
  match data !! "ticker", data !! "sentiment_score",
        data !! "timestamp", data !! "data_point_count" with
  | Some ticker, Some score, Some ts, Some count =>
      if negb (is_str ticker) || str_longer_than_5 ticker then
        log WARNING "Invalid ticker: " ;; mret false
      else if negb (is_int_or_float score) || negb (num_in_unit_range score) then
        log WARNING "Invalid sentiment_score: " ;; mret false
      else if negb (is_int_or_float ts) then
        log WARNING "Invalid timestamp: " ;; mret false
      else if negb (is_int count) || int_negative count then
        log WARNING "Invalid data_point_count: " ;; mret false
      else
        match data !! "source" with
        | Some source =>
            if negb (is_str source) then
              log WARNING "Invalid source: " ;; mret false
            else mret true
        | None => mret true
        end
  | _, _, _, _ =>
      log WARNING "Data missing required fields: " ;; mret false
  end.

(** [[row for row in data if validate_schema_compatibility(row)]] *)
Fixpoint schema_valid_rows (data : list dict) : M (list dict) :=
  match data with
  | [] => mret ([] : list dict)
  | row :: rest =>
      ok ← validate_schema_compatibility row ;
      kept ← schema_valid_rows rest ;
      mret (if (ok : bool) then row :: kept else kept)
  end.

(** ** service.py *)

Module SentimentService.
Section Service.

Context (pb2 : sentiment_pb2) (cfg : settings) (bq : bigquery_client).

(** The table the two statements read: [`{self.dataset}.{self.table}`]. *)
Definition table_name : string :=
  BQ_DATASET cfg +:+ "." +:+ SENTIMENT_TABLE cfg.

(** The dictionary literal [timeframe_map]; a later key overrides an
    earlier equal one. *)
Definition timeframe_map : gmap Z string :=
  <[TIMEFRAME_1W pb2 := "7 DAY"]>
    (<[TIMEFRAME_1D pb2 := "24 HOUR"]>
      (<[TIMEFRAME_1H pb2 := "1 HOUR"]> ∅)).

(** The dictionary literal [interval_map]. *)
Definition interval_map : gmap Z Z :=
  <[INTERVAL_1D pb2 := 86400]>
    (<[INTERVAL_1H pb2 := 3600]>
      (<[INTERVAL_1M pb2 := 60]> ∅)).

Definition get_stock_sentiment (ticker : string) (timeframe : Z) : M dict :=
  if ticker_rejected ticker then
    log WARNING "Invalid ticker received: " ;;
    mret ({[ "error" := VStr "Ticker must be a valid alphanumeric string (max 5 characters)" ]} : dict)
  else
    let bq_timeframe := default "1 HOUR" (timeframe_map !! timeframe) in
    log INFO "Querying sentiment for ticker " ;;
    r ← query_aggregate bq SqlGetStockSentiment table_name [("ticker", VStr ticker)] ;
    match r with
    | Reply (result :: _) _ =>
        score ← SentimentScore.__init__ ticker (agg_sentiment_score result)
                  (agg_timestamp result) (agg_data_point_count result) None ;
        mret (SentimentScore.to_dict score)
    | Reply [] None =>
        score ← SentimentScore.__init__ ticker 0%float 0 0
                  (Some ("No data available for " +:+ ticker +:+
                         " in the last " +:+ bq_timeframe)) ;
        mret (SentimentScore.to_dict score)
    | Reply [] (Some e) =>
        log ERROR "BigQuery query failed for " ;;
        mret ({[ "error" := VStr ("Internal server error: " +:+ e) ]} : dict)
    end.

(** The dictionary yielded for one row of the bucketed query. *)
Definition bucket_message (ticker : string) (row : agg_row) : dict :=
  {[ "ticker" := VStr ticker;
     "sentiment_score" := VFloat (agg_sentiment_score row);
     "timestamp" := VInt (agg_timestamp row);
     "data_point_count" := VInt (agg_data_point_count row) ]}.

(** The generator [stream_stock_sentiment], run to exhaustion: the result
    is the sequence of the dictionaries it yields, in order. *)
Definition stream_stock_sentiment (ticker : string)
    (start_time end_time : Timestamp) (interval : Z) : M (list dict) :=
  if ticker_rejected ticker then
    log WARNING "Invalid ticker received: " ;;
    mret [({[ "error" := VStr "Ticker must be a valid alphanumeric string (max 5 characters)" ]} : dict)]
  else if seconds end_time <=? seconds start_time then
    log WARNING "Invalid time range: start_time " ;;
    mret [({[ "error" := VStr "Start time must be less than end time" ]} : dict)]
  else
    let interval_seconds := default 3600 (interval_map !! interval) in
    log INFO "Streaming sentiment for " ;;
    r ← query_aggregate bq SqlStreamStockSentiment table_name
          [("ticker", VStr ticker);
           ("start_time", VInt (seconds start_time));
           ("end_time", VInt (seconds end_time));
           ("interval_seconds", VInt interval_seconds)] ;
    match r with
    | Reply rows None => mret (map (bucket_message ticker) rows)
    | Reply rows (Some e) =>
        log ERROR "BigQuery streaming query failed for " ;;
        mret (map (bucket_message ticker) rows ++
              [({[ "error" := VStr ("Internal server error: " +:+ e) ]} : dict)])
    end.

End Service.
End SentimentService.

(** ** bigquery.py *)

Module BigQueryClient.
Section Client.

Context (cfg : settings) (bq : bigquery_client) (dataset_id table_id : string).

(** [self.table_ref] *)
Definition table_ref : string :=
  GCP_PROJECT_ID cfg +:+ "." +:+ dataset_id +:+ "." +:+ table_id.

Definition insert_data (data : list dict) : M bool :=
  match data with
  | [] => log WARNING "No valid data provided for insertion." ;; mret false
  | _ =>
      valid_data ← schema_valid_rows data ;
      (if (length valid_data <? length data)%nat
       then log WARNING "Filtered out "
       else mret tt) ;;
      match valid_data with
      | [] => log WARNING "No valid data to insert after validation." ;; mret false
      | _ =>
          r ← insert_rows_json bq table_ref valid_data ;
          match r with
          | InsertErrors [] => log INFO "Successfully inserted " ;; mret true
          | InsertErrors _ => log ERROR "BigQuery insert errors: " ;; mret false
          | InsertRaises _ => log ERROR "Failed to insert data into BigQuery: " ;; mret false
          end
      end
  end.

(** The dictionary built for one row of the range query. *)
Definition row_dict (row : data_row) : dict :=
  {[ "ticker" := VStr (row_ticker row);
     "sentiment_score" := VFloat (row_sentiment_score row);
     "timestamp" := VInt (row_timestamp row);
     "data_point_count" := VInt (row_data_point_count row);
     "source" := row_source row ]}.

Definition query_data (ticker : string) (start_time end_time : Z) : M (list dict) :=
  if negb (truthy (VStr ticker)) || (end_time <=? start_time) then
    log WARNING "Invalid query parameters: ticker=" ;; mret ([] : list dict)
  else
    r ← query_select bq SqlQueryData table_ref
          [("ticker", VStr ticker);
           ("start_time", VInt start_time);
           ("end_time", VInt end_time)] ;
    match r with
    | Reply rows None =>
        let results := map row_dict rows in
        log INFO "Queried " ;; mret results
    | Reply _ (Some _) =>
        log ERROR "Failed to query BigQuery: " ;; mret ([] : list dict)
    end.

End Client.
End BigQueryClient.

(** ** sentiment.py

    sentiment.py uses [List] and [datetime] without importing them; they
    are read as [typing.List] and [datetime.datetime], the names that
    pipeline.py imports. *)

Module SentimentAnalyzer.
Section Analyzer.

(** [polarity text] is [TextBlob(text).sentiment.polarity].
    [iso_to_epoch s] is
    [int(datetime.fromisoformat(s.replace("Z", "+00:00")).timestamp())],
    with [None] for a [ValueError]. *)
Context (polarity : string -> scored) (iso_to_epoch : string -> option Z).

Definition analyze_text (text ticker : pyval) (timestamp : Z)
    : M (option SentimentScore.t) :=
  match text with
  | VStr s =>
      if negb (truthy text) then
        log WARNING "Invalid text provided for analysis: " ;; mret None
      else if negb (truthy ticker) then
        log WARNING "No ticker provided for sentiment analysis." ;; mret None
      else
        (* the [try] block *)
        match polarity s, ticker with
        | Polarity sentiment_score, VStr ticker =>
            score ← SentimentScore.__init__ ticker sentiment_score timestamp 1 None ;
            if SentimentScore.is_valid score then
              log DEBUG "Sentiment analyzed for ticker " ;; mret (Some score)
            else
              log WARNING "Invalid sentiment score generated: " ;; mret None
        | _, _ =>
            (* [except Exception]: the scorer raised, or [ticker] is not a
               string and [ticker.isalnum()] raised [AttributeError]. *)
            log ERROR "Failed to analyze sentiment for text '" ;; mret None
        end
  | _ =>
      (* [not text or not isinstance(text, str)] *)
      log WARNING "Invalid text provided for analysis: " ;; mret None
  end.

(** The body of the [for] loop of [analyze_batch] for one item; [None]
    when the item is skipped. *)
Definition analyze_item (item : dict) : M (option SentimentScore.t) :=
  let text := default (VStr "") (item !! "text") in
  let ticker := default (VStr "") (item !! "ticker") in
  let timestamp := default VNone (item !! "timestamp") in
  match timestamp with
  | VStr s =>
      match iso_to_epoch s with
      | Some ts => analyze_text text ticker ts
      | None => log WARNING "Invalid timestamp in batch item: " ;; mret None
      end
  | VInt ts => analyze_text text ticker ts
  | VBool b => analyze_text text ticker (Z.b2z b)
  | _ => log WARNING "Skipping item with invalid timestamp: " ;; mret None
  end.

Fixpoint analyze_items (data : list dict) : M (list SentimentScore.t) :=
  match data with
  | [] => mret ([] : list SentimentScore.t)
  | item :: rest =>
      score ← analyze_item item ;
      results ← analyze_items rest ;
      mret (match (score : option SentimentScore.t) with
            | Some s => s :: results
            | None => results
            end)
  end.

Definition analyze_batch (data : list dict) : M (list SentimentScore.t) :=
  match data with
  | [] => log WARNING "No valid data provided for batch analysis." ;;
          mret ([] : list SentimentScore.t)
  | _ =>
      results ← analyze_items data ;
      log INFO "Analyzed sentiment for " ;;
      mret results
  end.

End Analyzer.
End SentimentAnalyzer.

(** ** pipeline.py *)

Module SentimentPipeline.
Section Pipeline.

Context (cfg : settings) (bq : bigquery_client)
        (polarity : string -> scored) (iso_to_epoch : string -> option Z).

(** The dictionary [transform] builds from one score;
    [datetime.utcfromtimestamp(t)] is kept as [VDatetime t] (the source
    raises for a [t] outside the range of [datetime]). *)
Definition score_row (score : SentimentScore.t) : dict :=
  {[ "ticker" := VStr (SentimentScore.ticker score);
     "sentiment_score" := VFloat (SentimentScore.sentiment_score score);
     "timestamp" := VDatetime (SentimentScore.timestamp score);
     "data_point_count" := VInt (SentimentScore.data_point_count score);
     "source" := VStr "X" ]}.

(** [transform] up to its first [return]; the loop that follows it in the
    source is never reached. *)
Definition transform (raw_data : list dict) : M (list dict) :=
  match raw_data with
  | [] => log WARNING "No raw data provided for transformation." ;;
          mret ([] : list dict)
  | _ =>
      scores ← SentimentAnalyzer.analyze_batch polarity iso_to_epoch raw_data ;
      let transformed_data := map score_row scores in
      log INFO "Transformed " ;;
      mret transformed_data
  end.

Definition table_ref : string :=
  GCP_PROJECT_ID cfg +:+ "." +:+ BQ_DATASET cfg +:+ "." +:+ SENTIMENT_TABLE cfg.

Definition load_to_bigquery (data : list dict) : M bool :=
  match data with
  | [] => log WARNING "No data provided for loading into BigQuery." ;; mret false
  | _ =>
      valid_data ← schema_valid_rows data ;
      (if (length valid_data <? length data)%nat
       then log WARNING "Filtered out "
       else mret tt) ;;
      r ← insert_rows_json bq table_ref valid_data ;
      match r with
      | InsertErrors [] => log INFO "Successfully loaded " ;; mret true
      | InsertErrors _ => log ERROR "BigQuery insert errors: " ;; mret false
      | InsertRaises _ => log ERROR "Failed to load data into BigQuery: " ;; mret false
      end
  end.

(** One turn of the loop of [run], from the records that
    [extract_from_gcs] returned on; the two metrics are not modelled. *)
Definition run_body (raw_data : list dict) : M unit :=
  transformed_data ← transform raw_data ;
  success ← load_to_bigquery transformed_data ;
  if negb success then log WARNING "Pipeline run completed with errors."
  else mret tt.

End Pipeline.

Section Extract.

(** [list_blobs bucket prefix] is
    [list(self.storage_client.list_blobs(bucket, prefix=prefix))], with
    [None] when it raises a [GoogleAPIError]; [json_loads text] is
    [json.loads(text)] for a document that is a list of flat objects,
    with [None] for a [JSONDecodeError]. *)
Context (cfg : settings)
        (list_blobs : string -> string -> option (list blob))
        (json_loads : string -> option (list dict)).

(** [self.bucket_name] *)
Definition bucket_name : string := GCP_PROJECT_ID cfg +:+ "-raw-data".

(** [max(blobs, key=lambda b: b.name)], from the first blob on: a later
    blob replaces the current one only when its name is greater. *)
Fixpoint max_by_name (best : blob) (rest : list blob) : blob :=
  match rest with
  | [] => best
  | b :: rest' =>
      max_by_name (if String.ltb (blob_name best) (blob_name b) then b else best) rest'
  end.

Definition extract_from_gcs (prefix : string) : M (list dict) :=
  match list_blobs bucket_name prefix with
  | None =>
      log ERROR "Failed to extract data from GCS: " ;; mret ([] : list dict)
  | Some [] =>
      log WARNING "No files found in GCS with prefix: " ;; mret ([] : list dict)
  | Some (first :: others) =>
      let latest_blob := max_by_name first others in
      match blob_text latest_blob with
      | None =>
          log ERROR "Failed to extract data from GCS: " ;; mret ([] : list dict)
      | Some text =>
          match json_loads text with
          | None =>
              log ERROR "Failed to decode JSON from GCS: " ;; mret ([] : list dict)
          | Some data => log INFO "Extracted " ;; mret data
          end
      end
  end.

End Extract.
End SentimentPipeline.

(** ** server.py: the unary entry point *)

Module SentimentServiceServicer.
Section Servicer.

Context (pb2 : sentiment_pb2) (cfg : settings) (bq : bigquery_client).

(** What [GetStockSentiment] hands back: the response message, by the
    keyword arguments it is built with ([EmptyResponse] is
    [SentimentResponse()]), and the status set on the gRPC context. *)
Inductive response :=
| EmptyResponse
| Response (ticker : string) (sentiment_score : float)
           (timestamp data_point_count : Z) (error : string).

Inductive status := StatusUnset | InvalidArgument (details : string).

(** [GetStockSentiment(request, context)] for a request with the given
    ticker and timeframe; the result is [None] only where [from_dict] is. *)
Definition GetStockSentiment (ticker : string) (timeframe : Z)
    : M (option (response * status)) :=
  log INFO "Received GetStockSentiment request for ticker: " ;;
  if negb (truthy (VStr ticker)) then
    mret (Some (EmptyResponse, InvalidArgument "Ticker is required"))
  else
    let timeframe := if truthy (VInt timeframe) then timeframe else TIMEFRAME_1H pb2 in
    result ← SentimentService.get_stock_sentiment pb2 cfg bq ticker timeframe ;
    score ← SentimentScore.from_dict result ;
    mret (match (score : option SentimentScore.t) with
          | Some score =>
              Some (Response (SentimentScore.ticker score)
                      (SentimentScore.sentiment_score score)
                      (SentimentScore.timestamp score)
                      (SentimentScore.data_point_count score)
                      (default "" (SentimentScore.error score)),
                    StatusUnset)
          | None => None
          end).

End Servicer.
End SentimentServiceServicer.

(** ** fetcher.py: ticker extraction *)

Module XDataFetcher.

(** [[A-Z]] *)
Definition is_upper (c : ascii) : bool :=
  let n := Z.of_N (N_of_ascii c) in (65 <=? n) && (n <=? 90).

(** [\w] on a [str]: an alphanumeric character or the underscore. *)
Definition is_word_char (c : ascii) : bool :=
  char_isalnum c || Ascii.eqb c "_".

(** [[A-Z]{k}\b] matched at the start of [s], for [k] letters exactly:
    the letters, when [s] starts with [k] upper-case letters that are
    followed by the end of the text or by a character that is not a word
    character. *)
Fixpoint match_upper (k : nat) (s : string) : option string :=
  match k, s with
  | O, EmptyString => Some EmptyString
  | O, String c _ => if is_word_char c then None else Some EmptyString
  | S _, EmptyString => None
  | S k', String c rest =>
      if is_upper c then
        match match_upper k' rest with
        | Some letters => Some (String c letters)
        | None => None
        end
      else None
  end.

(** [[A-Z]{1,5}\b] at the start of [s]: the greedy repetition tries five
    letters first and gives one back at a time. *)
Definition match_ticker (s : string) : option string :=
  fold_right
    (fun k later => match match_upper k s with Some t => Some t | None => later end)
    None [5; 4; 3; 2; 1]%nat.

(** [re.search(r"\$[A-Z]{1,5}\b", text)]: the leftmost match, without its
    first character. *)
Fixpoint search_ticker (text : string) : option string :=
  match text with
  | EmptyString => None
  | String c rest =>
      if Ascii.eqb c "$" then
        match match_ticker rest with
        | Some t => Some t
        | None => search_ticker rest
        end
      else search_ticker rest
  end.

Definition _extract_ticker (text : string) : string :=
  default "" (search_ticker text).

End XDataFetcher.

(** ** Vocabulary of the properties, store doubles and sample data *)

(** The values the examples are evaluated with. *)
Definition cfg0 : settings := Settings "stock-sentiment-analyzer" "sentiment_dataset" "sentiment_data".
Definition pb2_0 : sentiment_pb2 := Pb2 1 2 3 1 2 3.

(** A store double that answers every query with zero rows and accepts
    every insertion. *)
Definition empty_store : bigquery_client :=
  BigQuery (fun _ _ _ _ => Reply [] None) (fun _ _ _ _ => Reply [] None)
           (fun _ _ _ => InsertErrors []).

(** A few buckets, and a store double that answers every aggregate query
    with them. *)
Definition sample_stream_rows : list agg_row :=
  [AggRow 0.5%float 1711500000 30; AggRow (-0.25)%float 1711503600 20].
Definition sample_store : bigquery_client :=
  BigQuery (fun _ _ _ _ => Reply sample_stream_rows None)
           (fun _ _ _ _ => Reply [] None)
           (fun _ _ _ => InsertErrors []).

(** A dictionary that reports an error the way the service does. *)
Definition error_message (text : string) : dict := {[ "error" := VStr text ]}.

(** The two request-validation errors of [stream_stock_sentiment]. *)
Definition validation_error (d : dict) : Prop :=
  d = error_message "Ticker must be a valid alphanumeric string (max 5 characters)" \/
  d = error_message "Start time must be less than end time".

(** The parameters of the bucketed query. *)
Definition stream_params (ticker : string) (start_time end_time : Timestamp)
    (interval_seconds : Z) : list (string * pyval) :=
  [("ticker", VStr ticker);
   ("start_time", VInt (seconds start_time));
   ("end_time", VInt (seconds end_time));
   ("interval_seconds", VInt interval_seconds)].

(** A result carries an error when one of its dictionaries has an
    ["error"] entry. *)
Definition carries_error (msgs : list dict) : Prop :=
  exists d, d ∈ msgs /\ is_Some (d !! "error").

(** The raw record of the round-trip property: it has a ["created_at"]
    entry and no ["timestamp"] entry. *)
Definition raw_record : dict :=
  {[ "text" := VStr "I love $AAPL";
     "ticker" := VStr "AAPL";
     "created_at" := VStr "2025-03-27T12:00:00Z" ]}.

(** The same record with its time under the key [analyze_batch] reads. *)
Definition raw_record_timestamp_key : dict :=
  {[ "text" := VStr "I love $AAPL";
     "ticker" := VStr "AAPL";
     "timestamp" := VStr "2025-03-27T12:00:00Z" ]}.

(** A scorer whose lexicon model fails on every text. *)
Definition failing_scorer : string -> scored :=
  fun _ => ScorerRaised "lexicon unavailable".

(** The reading of the result of a load that the docstrings give:
    [True] if the insertion succeeds, [False] otherwise. *)
Definition load_succeeded (r : bool) : Prop := r = true.

(** A row that the schema accepts, and one that it refuses (the two
    examples at the end of schema.py). *)
Definition valid_row : dict :=
  {[ "ticker" := VStr "AAPL"; "sentiment_score" := VFloat 0.75%float;
     "timestamp" := VInt 1711500000; "data_point_count" := VInt 50;
     "source" := VStr "X" ]}.

Definition invalid_row : dict :=
  {[ "ticker" := VStr "INVALID_TICKER"; "sentiment_score" := VFloat 2%float;
     "timestamp" := VStr "not_a_timestamp"; "data_point_count" := VInt (-1) ]}.

(** A store double whose insertion raises. *)
Definition failing_store : bigquery_client :=
  BigQuery (fun _ _ _ _ => Reply [] (Some "backend unavailable"))
           (fun _ _ _ _ => Reply [] (Some "backend unavailable"))
           (fun _ _ _ => InsertRaises "backend unavailable").

(** A row with an empty ticker and otherwise conforming fields. *)
Definition empty_ticker_row : dict :=
  {[ "ticker" := VStr ""; "sentiment_score" := VFloat 0.5%float;
     "timestamp" := VInt 1711500000; "data_point_count" := VInt 1;
     "source" := VStr "X" ]}.

(** The parameters of the range query. *)
Definition range_params (ticker : string) (s e : Z) : list (string * pyval) :=
  [("ticker", VStr ticker); ("start_time", VInt s); ("end_time", VInt e)].

(** Whether the schema accepts a row: the answer of
    [validate_schema_compatibility], which does not depend on the log. *)
Definition schema_ok (row : dict) : bool :=
  fst (validate_schema_compatibility row world0).

(** What one item of a batch gives: a record, or nothing. *)
Definition item_result (polarity : string -> scored) (iso_to_epoch : string -> option Z)
    (item : dict) : option SentimentScore.t :=
  fst (SentimentAnalyzer.analyze_item polarity iso_to_epoch item world0).

(** A store double that yields the sample buckets and then fails. *)
Definition flaky_store : bigquery_client :=
  BigQuery (fun _ _ _ _ => Reply sample_stream_rows (Some "deadline exceeded"))
           (fun _ _ _ _ => Reply [] (Some "deadline exceeded"))
           (fun _ _ _ => InsertRaises "deadline exceeded").

(** The message that replaces the service's own error texts. *)
Definition hidden_error_response : SentimentServiceServicer.response :=
  SentimentServiceServicer.Response "" 0%float 0 0
    "Ticker must be a non-empty string (max 5 characters)".

(** Every character is an upper-case letter [A] to [Z]. *)
Fixpoint all_upper (s : string) : bool :=
  match s with
  | EmptyString => true
  | String c rest => XDataFetcher.is_upper c && all_upper rest
  end.

(** What may follow a matched ticker: the end of the text, or a character
    that is not a word character. *)
Definition word_boundary (post : string) : Prop :=
  match post with
  | EmptyString => True
  | String c _ => XDataFetcher.is_word_char c = false
  end.

(** Two records in the shape [fetch_tweets] builds them. *)
Definition fetched_records : list dict :=
  [ {[ "tweet_id" := VInt 123456789; "text" := VStr "Loving $AAPL today!";
       "created_at" := VStr "2025-03-27T12:00:00Z"; "username" := VStr "user1";
       "ticker" := VStr "AAPL" ]};
    {[ "tweet_id" := VInt 987654321; "text" := VStr "$TSLA is skyrocketing!";
       "created_at" := VStr "2025-03-27T12:01:00Z"; "username" := VStr "user2";
       "ticker" := VStr "TSLA" ]} ].

(** * Properties *)

(** Unfolding of the monad and of the primitive effects. *)
Ltac run_m :=
  cbv beta iota zeta delta
    [mbind M_bind mret M_ret log query_aggregate query_select
     insert_rows_json history record_call] in *;
  cbn [fst snd w_log w_calls] in *.

(** ** SentimentScore *)

(** With an accepted ticker, [__init__] stores its arguments as they are:
    no other field is looked at. *)
Lemma init_accepted_ticker ticker score ts count err w :
  ticker_rejected ticker = false ->
  SentimentScore.__init__ ticker score ts count err w =
    (SentimentScore.Make ticker score ts count err, w).
Proof.
  intros H. unfold SentimentScore.__init__. rewrite H. reflexivity.
Qed.

(** With a rejected ticker, [__init__] stores the ticker message, whatever
    the other fields are. *)
Lemma init_rejected_ticker ticker score ts count err w :
  ticker_rejected ticker = true ->
  SentimentScore.error (fst (SentimentScore.__init__ ticker score ts count err w)) =
    Some "Ticker must be a non-empty string (max 5 characters)".
Proof.
  intros H. unfold SentimentScore.__init__. rewrite H. reflexivity.
Qed.

(** The whole of what [__init__] decides: the record has no error exactly
    when the ticker is accepted and no error was passed in. *)
Lemma init_no_error_iff ticker score ts count err w :
  SentimentScore.error (fst (SentimentScore.__init__ ticker score ts count err w)) = None <->
  ticker_rejected ticker = false /\ err = None.
Proof.
  destruct (ticker_rejected ticker) eqn:Ht.
  - rewrite init_rejected_ticker by assumption. split; [discriminate | intros [? _]; discriminate].
  - rewrite init_accepted_ticker by assumption. cbn. split; [intros ->; auto | intros [_ ->]; reflexivity].
Qed.

(** What [__post_init__] would guarantee if it ran: a record it leaves
    without error satisfies the range constraints. *)
Lemma post_init_no_error_fields_ok self w :
  SentimentScore.error (fst (SentimentScore.__post_init__ self w)) = None ->
  float_in_unit_range (SentimentScore.sentiment_score self) = true /\
  0 <= SentimentScore.timestamp self /\
  0 <= SentimentScore.data_point_count self /\
  0 < len (SentimentScore.ticker self) <= 5.
Proof.
  unfold SentimentScore.__post_init__. run_m.
  destruct self as [t s ts c e]; cbn.
  destruct (String.eqb t "") eqn:Ht; cbn;
  destruct (5 <? len t) eqn:Hl; cbn;
  destruct (float_in_unit_range s) eqn:Hs; cbn;
  destruct (ts <? 0) eqn:Hts; cbn;
  destruct (c <? 0) eqn:Hc; cbn; try discriminate.
  intros _. apply String.eqb_neq in Ht.
  repeat split; try lia.
  unfold len. destruct t; [congruence | cbn; lia].
Qed.

(** C1: the record built from ticker "AAPL", score 2.0, timestamp 0 and
    count 0 has no error and is valid, although 2.0 lies outside
    [-1.0, 1.0]; the same holds with a negative timestamp and a negative
    count.  The range checks sit in [__post_init__], which the explicit
    [__init__] never calls. *)
Theorem init_accepts_out_of_range_fields :
  let r := fst (SentimentScore.__init__ "AAPL" 2%float 0 0 None world0) in
  let r' := fst (SentimentScore.__init__ "AAPL" 0%float (-1) (-10) None world0) in
  float_in_unit_range (SentimentScore.sentiment_score r) = false /\
  SentimentScore.error r = None /\ SentimentScore.is_valid r = true /\
  SentimentScore.error r' = None /\ SentimentScore.is_valid r' = true.
Proof. vm_compute. repeat split. Qed.

(** C7: with ticker "AAPL", score 2.0 and timestamp -1, two constraints
    are violated and the first one in the order is the polarity range;
    the constructed record stores no error at all.  Were
    [__post_init__] run on it, the error kept would be the one of the
    last violated constraint, the timestamp. *)
Theorem init_stores_no_first_violation :
  SentimentScore.error
    (fst (SentimentScore.__init__ "AAPL" 2%float (-1) 0 None world0)) = None /\
  SentimentScore.error
    (fst (SentimentScore.__post_init__
            (SentimentScore.Make "AAPL" 2%float (-1) 0 None) world0)) =
    Some "Timestamp must be a non-negative integer".
Proof. vm_compute. split; reflexivity. Qed.

(** ** The streaming entry point *)

(** On a well-formed request the stream is the store's answer to the
    bucketed query, whose bucket width is the table's entry for the token
    or 3600 when there is none. *)
Lemma stream_well_formed pb2 cfg bq ticker st et interval w :
  ticker_rejected ticker = false ->
  seconds st < seconds et ->
  SentimentService.stream_stock_sentiment pb2 cfg bq ticker st et interval w =
    let width := default 3600 (SentimentService.interval_map pb2 !! interval) in
    let table := SentimentService.table_name cfg in
    let params := stream_params ticker st et width in
    let w1 := World (w_log w ++ [Log INFO "Streaming sentiment for "])
                    (w_calls w ++ [CallQuery SqlStreamStockSentiment table params]) in
    match bq_aggregate bq (w_calls w) SqlStreamStockSentiment table params with
    | Reply rows None => (map (SentimentService.bucket_message ticker) rows, w1)
    | Reply rows (Some e) =>
        (map (SentimentService.bucket_message ticker) rows ++
           [error_message ("Internal server error: " +:+ e)],
         World (w_log w1 ++ [Log ERROR "BigQuery streaming query failed for "]) (w_calls w1))
    end.
Proof.
  intros Ht Hr. unfold SentimentService.stream_stock_sentiment.
  rewrite Ht. replace (seconds et <=? seconds st) with false by lia.
  run_m. unfold stream_params.
  destruct (bq_aggregate bq _ _ _ _) as [rows [e|]]; reflexivity.
Qed.

(** A bucket message has no ["error"] entry. *)
Lemma bucket_message_no_error ticker row :
  SentimentService.bucket_message ticker row !! "error" = None.
Proof.
  unfold SentimentService.bucket_message.
  rewrite !lookup_insert_ne by discriminate.
  apply lookup_singleton_ne. discriminate.
Qed.

Lemma bucket_messages_carry_no_error ticker rows :
  ~ carries_error (map (SentimentService.bucket_message ticker) rows).
Proof.
  intros [d [Hd [v Hv]]].
  apply list_elem_of_In, in_map_iff in Hd. destruct Hd as [row [<- _]].
  rewrite bucket_message_no_error in Hv. discriminate.
Qed.

(** C2: for a token that the table [interval_map] does not hold, a
    well-formed streaming request is not answered by one error: the
    token is replaced by 3600 seconds, the bucketed query is sent with
    that width, and the stream is one data message per row the store
    returns (none for an empty answer), none of which is an error. *)
Theorem stream_unknown_interval_uses_default pb2 cfg bq ticker st et interval w rows :
  ticker_rejected ticker = false ->
  seconds st < seconds et ->
  SentimentService.interval_map pb2 !! interval = None ->
  bq_aggregate bq (w_calls w) SqlStreamStockSentiment
    (SentimentService.table_name cfg) (stream_params ticker st et 3600) = Reply rows None ->
  let '(msgs, w') := SentimentService.stream_stock_sentiment pb2 cfg bq ticker st et interval w in
  msgs = map (SentimentService.bucket_message ticker) rows /\
  ~ carries_error msgs /\
  w_calls w' = w_calls w ++
    [CallQuery SqlStreamStockSentiment (SentimentService.table_name cfg)
       (stream_params ticker st et 3600)].
Proof.
  intros Ht Hr Hi Hq.
  rewrite stream_well_formed by assumption.
  rewrite Hi. cbn [default from_option]. cbv zeta. rewrite Hq.
  split; [reflexivity |]. split; [apply bucket_messages_carry_no_error | reflexivity].
Qed.

Lemma stream_unknown_interval_uses_default_witness :
  let '(msgs, w') :=
    SentimentService.stream_stock_sentiment pb2_0 cfg0 sample_store "TSLA"
      (MkTimestamp 1711496400 0) (MkTimestamp 1711507200 0) 99 world0 in
  msgs = map (SentimentService.bucket_message "TSLA") sample_stream_rows /\
  ~ carries_error msgs /\
  w_calls w' = w_calls world0 ++
    [CallQuery SqlStreamStockSentiment (SentimentService.table_name cfg0)
       (stream_params "TSLA" (MkTimestamp 1711496400 0) (MkTimestamp 1711507200 0) 3600)].
Proof.
  apply (stream_unknown_interval_uses_default pb2_0 cfg0 sample_store "TSLA"
           (MkTimestamp 1711496400 0) (MkTimestamp 1711507200 0) 99 world0
           sample_stream_rows).
  - reflexivity.
  - cbn. lia.
  - vm_compute. reflexivity.
  - reflexivity.
Defined.

(** An ill-formed request is answered by one validation error, and the
    store is not called. *)
Lemma stream_ill_formed pb2 cfg bq ticker st et interval w :
  ticker_rejected ticker = true \/ seconds et <= seconds st ->
  exists d w',
    SentimentService.stream_stock_sentiment pb2 cfg bq ticker st et interval w = ([d], w') /\
    validation_error d /\ w_calls w' = w_calls w.
Proof.
  intros H. unfold SentimentService.stream_stock_sentiment, validation_error, error_message.
  destruct (ticker_rejected ticker) eqn:Ht.
  - run_m. eexists _, _. split; [reflexivity |]. split; [left; reflexivity | reflexivity].
  - destruct H as [H | H]; [discriminate |].
    replace (seconds et <=? seconds st) with true by lia.
    run_m. eexists _, _. split; [reflexivity |]. split; [right; reflexivity | reflexivity].
Qed.

(** What [query_data] does with an empty ticker or an empty time range. *)
Lemma query_data_invalid cfg bq dataset_id table_id ticker s e w :
  ticker = "" \/ e <= s ->
  BigQueryClient.query_data cfg bq dataset_id table_id ticker s e w =
    ([], World (w_log w ++ [Log WARNING "Invalid query parameters: ticker="]) (w_calls w)).
Proof.
  intros H. unfold BigQueryClient.query_data.
  replace (negb (truthy (VStr ticker)) || (e <=? s)) with true; [reflexivity |].
  destruct H as [-> | H]; [reflexivity |].
  replace (e <=? s) with true by lia. now rewrite orb_true_r.
Qed.

(** C4, as the code has it: when the start time is not before the end
    time, [stream_stock_sentiment] emits exactly one message, a
    validation error, and sends no query; [query_data] sends no query
    either, but what it returns is the empty list, with a warning in the
    log. *)
Theorem empty_range_sends_no_query pb2 cfg bq dataset_id table_id ticker st et interval w :
  seconds et <= seconds st ->
  (exists d w',
     SentimentService.stream_stock_sentiment pb2 cfg bq ticker st et interval w = ([d], w') /\
     validation_error d /\ w_calls w' = w_calls w) /\
  (exists w',
     BigQueryClient.query_data cfg bq dataset_id table_id ticker (seconds st) (seconds et) w = ([], w') /\
     w_calls w' = w_calls w /\
     w_log w' = w_log w ++ [Log WARNING "Invalid query parameters: ticker="]).
Proof.
  intros H. split.
  - apply stream_ill_formed. now right.
  - eexists. rewrite query_data_invalid by now right.
    split; [reflexivity |]. split; reflexivity.
Qed.

Lemma empty_range_sends_no_query_witness :
  (exists d w',
     SentimentService.stream_stock_sentiment pb2_0 cfg0 sample_store "TSLA"
       (MkTimestamp 1711507200 0) (MkTimestamp 1711496400 0) 2 world0 = ([d], w') /\
     validation_error d /\ w_calls w' = w_calls world0) /\
  (exists w',
     BigQueryClient.query_data cfg0 sample_store "sentiment_dataset" "sentiment_data" "TSLA"
       1711507200 1711496400 world0 = ([], w') /\
     w_calls w' = w_calls world0 /\
     w_log w' = w_log world0 ++ [Log WARNING "Invalid query parameters: ticker="]).
Proof.
  apply (empty_range_sends_no_query pb2_0 cfg0 sample_store "sentiment_dataset"
           "sentiment_data" "TSLA" (MkTimestamp 1711507200 0) (MkTimestamp 1711496400 0)
           2 world0).
  cbn. lia.
Defined.

(** C4 as stated fails for [query_data]: with start 1711507200 after end
    1711496400 it returns the empty list, which carries no error and is
    what a well-formed query over an empty table returns. *)
Lemma query_data_empty_range_returns_no_error :
  let r := fst (BigQueryClient.query_data cfg0 empty_store "sentiment_dataset"
                  "sentiment_data" "AAPL" 1711507200 1711496400 world0) in
  r = [] /\ ~ carries_error r /\
  r = fst (BigQueryClient.query_data cfg0 empty_store "sentiment_dataset"
             "sentiment_data" "AAPL" 1711496400 1711507200 world0).
Proof.
  cbv zeta. split; [reflexivity |]. split; [| reflexivity].
  intros [d [Hd _]]. cbn in Hd. inversion Hd.
Qed.

(** ** No data: the two entry points *)

(** C8: over a store that returns zero rows, [get_stock_sentiment] on an
    accepted ticker returns a dictionary whose ["error"] entry is the
    "No data available ..." text, while [stream_stock_sentiment] on a
    well-formed request yields no message at all and logs no error. *)
Theorem no_data_unary_error_stream_empty pb2 cfg bq ticker timeframe st et interval w :
  ticker_rejected ticker = false ->
  seconds st < seconds et ->
  (forall h q table params, bq_aggregate bq h q table params = Reply [] None) ->
  fst (SentimentService.get_stock_sentiment pb2 cfg bq ticker timeframe w) !! "error" =
    Some (VStr ("No data available for " +:+ ticker +:+ " in the last " +:+
                default "1 HOUR" (SentimentService.timeframe_map pb2 !! timeframe))) /\
  fst (SentimentService.stream_stock_sentiment pb2 cfg bq ticker st et interval w) = [] /\
  w_log (snd (SentimentService.stream_stock_sentiment pb2 cfg bq ticker st et interval w)) =
    w_log w ++ [Log INFO "Streaming sentiment for "].
Proof.
  intros Ht Hr Hbq. split.
  - unfold SentimentService.get_stock_sentiment. rewrite Ht. run_m.
    rewrite Hbq. run_m. rewrite init_accepted_ticker by assumption.
    unfold SentimentScore.to_dict. cbn [SentimentScore.error fst].
    rewrite !lookup_insert_ne by discriminate.
    apply lookup_singleton_eq.
  - rewrite stream_well_formed by assumption. cbv zeta. rewrite Hbq.
    split; reflexivity.
Qed.

Lemma no_data_unary_error_stream_empty_witness :
  fst (SentimentService.get_stock_sentiment pb2_0 cfg0 empty_store "AAPL" 1 world0) !! "error" =
    Some (VStr "No data available for AAPL in the last 1 HOUR") /\
  fst (SentimentService.stream_stock_sentiment pb2_0 cfg0 empty_store "AAPL"
         (MkTimestamp 1711496400 0) (MkTimestamp 1711507200 0) 2 world0) = [] /\
  w_log (snd (SentimentService.stream_stock_sentiment pb2_0 cfg0 empty_store "AAPL"
         (MkTimestamp 1711496400 0) (MkTimestamp 1711507200 0) 2 world0)) =
    w_log world0 ++ [Log INFO "Streaming sentiment for "].
Proof.
  apply (no_data_unary_error_stream_empty pb2_0 cfg0 empty_store "AAPL" 1
           (MkTimestamp 1711496400 0) (MkTimestamp 1711507200 0) 2 world0).
  - reflexivity.
  - cbn. lia.
  - intros. reflexivity.
Defined.

(** ** transform *)

(** C3: [transform] drops the record: [analyze_batch] reads the time of
    an item under ["timestamp"], finds nothing there, and skips the item,
    whatever the scorer and the date parser do.  The result is the empty
    list, not one record; the log holds the skip. *)
Theorem transform_raw_record_dropped polarity iso_to_epoch w :
  SentimentPipeline.transform polarity iso_to_epoch [raw_record] w =
    ([], World (w_log w ++ [Log WARNING "Skipping item with invalid timestamp: ";
                            Log INFO "Analyzed sentiment for ";
                            Log INFO "Transformed "])
               (w_calls w)).
Proof.
  unfold SentimentPipeline.transform, SentimentAnalyzer.analyze_batch,
    SentimentAnalyzer.analyze_items, SentimentAnalyzer.analyze_item.
  replace (raw_record !! "timestamp") with (@None pyval) by reflexivity.
  run_m. cbn [default from_option map w_log w_calls].
  rewrite <- !app_assoc. reflexivity.
Qed.

(** Had the record carried its time under ["timestamp"], [transform]
    would return the one record of the round-trip property. *)
Lemma transform_timestamp_key_kept polarity iso_to_epoch p w :
  polarity "I love $AAPL" = Polarity p ->
  iso_to_epoch "2025-03-27T12:00:00Z" = Some 1743076800 ->
  fst (SentimentPipeline.transform polarity iso_to_epoch [raw_record_timestamp_key] w) =
    [SentimentPipeline.score_row (SentimentScore.Make "AAPL" p 1743076800 1 None)].
Proof.
  intros Hp Hi.
  unfold SentimentPipeline.transform, SentimentAnalyzer.analyze_batch,
    SentimentAnalyzer.analyze_items, SentimentAnalyzer.analyze_item.
  replace (raw_record_timestamp_key !! "timestamp")
    with (Some (VStr "2025-03-27T12:00:00Z")) by reflexivity.
  replace (raw_record_timestamp_key !! "text")
    with (Some (VStr "I love $AAPL")) by reflexivity.
  replace (raw_record_timestamp_key !! "ticker")
    with (Some (VStr "AAPL")) by reflexivity.
  cbn [default from_option id]. rewrite Hi.
  unfold SentimentAnalyzer.analyze_text. cbn [truthy String.eqb Ascii.eqb negb].
  rewrite Hp. run_m.
  rewrite init_accepted_ticker by reflexivity. reflexivity.
Qed.

(** ** The polarity scorer *)

(** C6, as the code has it: [analyze_text] is a total function of its
    arguments (every exception of its [try] block is caught), and when
    the lexicon model fails on a non-empty text it returns [None], no
    record, and adds one error entry to the log. *)
Theorem scorer_failure_returns_none polarity text ticker ts e w :
  text <> "" ->
  truthy ticker = true ->
  polarity text = ScorerRaised e ->
  SentimentAnalyzer.analyze_text polarity (VStr text) ticker ts w =
    (None, World (w_log w ++ [Log ERROR "Failed to analyze sentiment for text '"])
                 (w_calls w)).
Proof.
  intros Ht Hk Hp. unfold SentimentAnalyzer.analyze_text.
  cbn [truthy]. apply String.eqb_neq in Ht. rewrite Ht, Hk, Hp.
  reflexivity.
Qed.

Lemma scorer_failure_returns_none_witness :
  SentimentAnalyzer.analyze_text failing_scorer (VStr "I love $AAPL") (VStr "AAPL")
      1743076800 world0 =
    (None, World (w_log world0 ++ [Log ERROR "Failed to analyze sentiment for text '"])
                 (w_calls world0)).
Proof.
  apply (scorer_failure_returns_none failing_scorer "I love $AAPL" (VStr "AAPL")
           1743076800 "lexicon unavailable" world0).
  - discriminate.
  - reflexivity.
  - reflexivity.
Defined.

(** C6 as stated fails: when the lexicon model fails, the caller gets no
    record, so in particular no record with polarity 0.0. *)
Lemma scorer_failure_gives_no_neutral_record :
  ~ exists r,
      fst (SentimentAnalyzer.analyze_text failing_scorer (VStr "I love $AAPL")
             (VStr "AAPL") 1743076800 world0) = Some r /\
      SentimentScore.sentiment_score r = 0%float.
Proof.
  intros [r [H _]]. vm_compute in H. discriminate H.
Qed.

(** ** Schema validation and loading *)

(** Schema validation only writes to the log. *)
Lemma validate_keeps_calls data w :
  w_calls (snd (validate_schema_compatibility data w)) = w_calls w.
Proof.
  unfold validate_schema_compatibility. run_m.
  repeat case_match; reflexivity.
Qed.

Lemma schema_valid_rows_keeps_calls data : forall w,
  w_calls (snd (schema_valid_rows data w)) = w_calls w.
Proof.
  induction data as [| row rest IH]; intros w; [reflexivity |].
  cbn [schema_valid_rows]. run_m.
  pose proof (validate_keeps_calls row w) as Hv.
  destruct (validate_schema_compatibility row w) as [ok w1]. cbn [snd] in Hv.
  pose proof (IH w1) as Hr.
  destruct (schema_valid_rows rest w1) as [kept w2]. cbn [snd] in *.
  congruence.
Qed.

(** C5, as the code has it: a load of the empty sequence returns [False],
    the value that also reports a failed insertion (there is no inserted
    count), after one warning and without any call to the store;
    [BigQueryClient.insert_data] does the same for a sequence that schema
    filtering leaves empty. *)
Theorem empty_load_returns_false cfg bq dataset_id table_id data w :
  data <> [] ->
  fst (schema_valid_rows data w) = [] ->
  SentimentPipeline.load_to_bigquery cfg bq [] w =
    (false, World (w_log w ++ [Log WARNING "No data provided for loading into BigQuery."])
                  (w_calls w)) /\
  BigQueryClient.insert_data cfg bq dataset_id table_id [] w =
    (false, World (w_log w ++ [Log WARNING "No valid data provided for insertion."])
                  (w_calls w)) /\
  (exists l,
     BigQueryClient.insert_data cfg bq dataset_id table_id data w =
       (false, World (l ++ [Log WARNING "No valid data to insert after validation."])
                     (w_calls w))).
Proof.
  intros Hne Hf. split; [reflexivity |]. split; [reflexivity |].
  unfold BigQueryClient.insert_data.
  destruct data as [| row rest]; [congruence |].
  run_m.
  pose proof (schema_valid_rows_keeps_calls (row :: rest) w) as Hc.
  destruct (schema_valid_rows (row :: rest) w) as [kept w1].
  cbn [fst snd] in *. subst kept.
  destruct (length [] <? length (row :: rest))%nat;
    cbn [w_log w_calls]; rewrite Hc; eexists; reflexivity.
Qed.

Lemma empty_load_returns_false_witness :
  SentimentPipeline.load_to_bigquery cfg0 empty_store [] world0 =
    (false, World (w_log world0 ++ [Log WARNING "No data provided for loading into BigQuery."])
                  (w_calls world0)) /\
  BigQueryClient.insert_data cfg0 empty_store "sentiment_dataset" "sentiment_data" [] world0 =
    (false, World (w_log world0 ++ [Log WARNING "No valid data provided for insertion."])
                  (w_calls world0)) /\
  (exists l,
     BigQueryClient.insert_data cfg0 empty_store "sentiment_dataset" "sentiment_data"
         [invalid_row] world0 =
       (false, World (l ++ [Log WARNING "No valid data to insert after validation."])
                     (w_calls world0))).
Proof.
  apply (empty_load_returns_false cfg0 empty_store "sentiment_dataset" "sentiment_data"
           [invalid_row] world0).
  - discriminate.
  - vm_compute. reflexivity.
Defined.

(** C5 as stated fails: the load of the empty sequence is not reported as
    a success.  Its result is the one of a load that the store fails, and
    the loop of [run] logs it as a run completed with errors. *)
Lemma empty_load_reported_as_failure :
  ~ load_succeeded (fst (SentimentPipeline.load_to_bigquery cfg0 empty_store [] world0)) /\
  ~ load_succeeded (fst (BigQueryClient.insert_data cfg0 empty_store "sentiment_dataset"
                           "sentiment_data" [] world0)) /\
  fst (SentimentPipeline.load_to_bigquery cfg0 empty_store [] world0) =
    fst (SentimentPipeline.load_to_bigquery cfg0 failing_store [valid_row] world0) /\
  last (w_log (snd (SentimentPipeline.run_body cfg0 empty_store failing_scorer
                      (fun _ => None) [] world0))) =
    Some (Log WARNING "Pipeline run completed with errors.").
Proof.
  unfold load_succeeded. vm_compute. repeat split; discriminate.
Qed.

(** [load_to_bigquery] has no test on the filtered rows: a sequence that
    filtering leaves empty still reaches the store, as one insertion of
    no rows, and the load is reported as a success when the store accepts
    it. *)
Lemma load_to_bigquery_filtered_empty_calls_insert :
  let '(r, w') := SentimentPipeline.load_to_bigquery cfg0 empty_store [invalid_row] world0 in
  r = true /\
  w_calls w' = [CallInsertRowsJson (SentimentPipeline.table_ref cfg0) []].
Proof. vm_compute. split; reflexivity. Qed.

(** C9: a dictionary whose ticker is the empty string and whose other
    fields conform passes [validate_schema_compatibility], although the
    empty ticker is one that [SentimentScore] and the service reject;
    [insert_data] then hands the row to the store. *)
Theorem empty_ticker_passes_schema cfg bq dataset_id table_id
    (data : dict) score ts count w :
  data !! "ticker" = Some (VStr "") ->
  data !! "sentiment_score" = Some score ->
  is_int_or_float score = true -> num_in_unit_range score = true ->
  data !! "timestamp" = Some ts -> is_int_or_float ts = true ->
  data !! "data_point_count" = Some count ->
  is_int count = true -> int_negative count = false ->
  (forall source, data !! "source" = Some source -> is_str source = true) ->
  validate_schema_compatibility data w = (true, w) /\
  ticker_rejected "" = true /\
  w_calls (snd (BigQueryClient.insert_data cfg bq dataset_id table_id [data] w)) =
    w_calls w ++
      [CallInsertRowsJson (BigQueryClient.table_ref cfg dataset_id table_id) [data]].
Proof.
  intros Ht Hs Hs1 Hs2 Hts Hts1 Hc Hc1 Hc2 Hsrc.
  assert (Hv : validate_schema_compatibility data w = (true, w)).
  { unfold validate_schema_compatibility.
    rewrite Ht, Hs, Hts, Hc. cbn [is_str str_longer_than_5 negb orb len String.length].
    rewrite Hs1, Hs2, Hts1, Hc1, Hc2. cbn [negb orb].
    replace (5 <? Z.of_nat 0) with false by reflexivity.
    destruct (data !! "source") as [source |] eqn:Hsource; [| reflexivity].
    rewrite (Hsrc source eq_refl). reflexivity. }
  split; [exact Hv |]. split; [reflexivity |].
  unfold BigQueryClient.insert_data. cbn [schema_valid_rows]. run_m.
  rewrite Hv. cbn [length Nat.ltb Nat.leb w_calls w_log].
  destruct (bq_insert bq _ _ _) as [[| err errs] | e]; reflexivity.
Qed.

Lemma empty_ticker_passes_schema_witness :
  validate_schema_compatibility empty_ticker_row world0 = (true, world0) /\
  ticker_rejected "" = true /\
  w_calls (snd (BigQueryClient.insert_data cfg0 empty_store "sentiment_dataset"
                  "sentiment_data" [empty_ticker_row] world0)) =
    w_calls world0 ++
      [CallInsertRowsJson (BigQueryClient.table_ref cfg0 "sentiment_dataset" "sentiment_data")
         [empty_ticker_row]].
Proof.
  apply (empty_ticker_passes_schema cfg0 empty_store "sentiment_dataset" "sentiment_data"
           empty_ticker_row (VFloat 0.5%float) (VInt 1711500000) (VInt 1) world0).
  - reflexivity.
  - reflexivity.
  - reflexivity.
  - reflexivity.
  - reflexivity.
  - reflexivity.
  - reflexivity.
  - reflexivity.
  - reflexivity.
  - intros source H. vm_compute in H. injection H as <-. reflexivity.
Defined.

(** ** query_data *)

(** What [query_data] does on valid inputs: one query, whose answer
    decides the result. *)
Lemma query_data_valid cfg bq dataset_id table_id ticker s e w :
  ticker <> "" -> s < e ->
  fst (BigQueryClient.query_data cfg bq dataset_id table_id ticker s e w) =
    match bq_select bq (w_calls w) SqlQueryData
            (BigQueryClient.table_ref cfg dataset_id table_id)
            (range_params ticker s e) with
    | Reply rows None => map BigQueryClient.row_dict rows
    | Reply _ (Some _) => []
    end.
Proof.
  intros Ht Hr. unfold BigQueryClient.query_data, range_params.
  cbn [truthy]. apply String.eqb_neq in Ht. rewrite Ht.
  replace (e <=? s) with false by lia. cbn [negb orb]. run_m.
  destruct (bq_select bq _ _ _ _) as [rows [err |]]; reflexivity.
Qed.

(** C10: [query_data] returns the empty list for invalid inputs (empty
    ticker, or start not before end), for a query that the store fails,
    and for a query that finds no row: the three returned values are the
    same. *)
Theorem query_data_empty_list_three_ways cfg dataset_id table_id
    bq1 ticker1 s1 e1 bq2 ticker2 s2 e2 rows err bq3 ticker3 s3 e3 w :
  (ticker1 = "" \/ e1 <= s1) ->
  (ticker2 <> "" /\ s2 < e2 /\
   bq_select bq2 (w_calls w) SqlQueryData (BigQueryClient.table_ref cfg dataset_id table_id)
     (range_params ticker2 s2 e2) = Reply rows (Some err)) ->
  (ticker3 <> "" /\ s3 < e3 /\
   bq_select bq3 (w_calls w) SqlQueryData (BigQueryClient.table_ref cfg dataset_id table_id)
     (range_params ticker3 s3 e3) = Reply [] None) ->
  fst (BigQueryClient.query_data cfg bq1 dataset_id table_id ticker1 s1 e1 w) = [] /\
  fst (BigQueryClient.query_data cfg bq2 dataset_id table_id ticker2 s2 e2 w) = [] /\
  fst (BigQueryClient.query_data cfg bq3 dataset_id table_id ticker3 s3 e3 w) = [].
Proof.
  intros H1 (Ht2 & Hr2 & Hq2) (Ht3 & Hr3 & Hq3). repeat split.
  - rewrite query_data_invalid by assumption. reflexivity.
  - rewrite query_data_valid by assumption. rewrite Hq2. reflexivity.
  - rewrite query_data_valid by assumption. rewrite Hq3. reflexivity.
Qed.

Lemma query_data_empty_list_three_ways_witness :
  fst (BigQueryClient.query_data cfg0 sample_store "sentiment_dataset" "sentiment_data"
         "AAPL" 1711507200 1711496400 world0) = [] /\
  fst (BigQueryClient.query_data cfg0 failing_store "sentiment_dataset" "sentiment_data"
         "AAPL" 1711496400 1711507200 world0) = [] /\
  fst (BigQueryClient.query_data cfg0 empty_store "sentiment_dataset" "sentiment_data"
         "AAPL" 1711496400 1711507200 world0) = [].
Proof.
  apply (query_data_empty_list_three_ways cfg0 "sentiment_dataset" "sentiment_data"
           sample_store "AAPL" 1711507200 1711496400
           failing_store "AAPL" 1711496400 1711507200 [] "backend unavailable"
           empty_store "AAPL" 1711496400 1711507200 world0).
  - right. lia.
  - split; [discriminate |]. split; [lia | reflexivity].
  - split; [discriminate |]. split; [lia | reflexivity].
Defined.

(** * Further properties of the code *)

(** ** Schema validation and the two loaders *)

Lemma validate_result data w :
  fst (validate_schema_compatibility data w) = schema_ok data.
Proof.
  unfold schema_ok, validate_schema_compatibility. run_m.
  repeat case_match; reflexivity.
Qed.

Lemma validate_log_length data w :
  length (w_log (snd (validate_schema_compatibility data w))) =
    (length (w_log w) + (if schema_ok data then 0 else 1))%nat.
Proof.
  unfold schema_ok, validate_schema_compatibility. run_m.
  repeat case_match; cbn [fst snd w_log] in *; try discriminate;
    rewrite ?length_app; cbn [length]; lia.
Qed.

Lemma schema_valid_rows_result data : forall w,
  fst (schema_valid_rows data w) = List.filter schema_ok data.
Proof.
  induction data as [| row rest IH]; intros w; [reflexivity |].
  cbn [schema_valid_rows List.filter]. run_m.
  pose proof (validate_result row w) as Hv.
  destruct (validate_schema_compatibility row w) as [ok w1]. cbn [fst] in Hv.
  pose proof (IH w1) as Hr.
  destruct (schema_valid_rows rest w1) as [kept w2]. cbn [fst] in *.
  subst ok kept. reflexivity.
Qed.

(** What a row's lookups are once the four required entries and the
    acceptance of the row are known. *)
Lemma schema_ok_inv (data : dict) :
  schema_ok data = true ->
  exists ticker score ts count,
    data !! "ticker" = Some (VStr ticker) /\ len ticker <= 5 /\
    data !! "sentiment_score" = Some score /\
    is_int_or_float score = true /\ num_in_unit_range score = true /\
    data !! "timestamp" = Some ts /\ is_int_or_float ts = true /\
    data !! "data_point_count" = Some count /\
    is_int count = true /\ int_negative count = false /\
    (forall source, data !! "source" = Some source -> is_str source = true).
Proof.
  unfold schema_ok, validate_schema_compatibility. run_m.
  destruct (data !! "ticker") as [ticker |]; [| discriminate].
  destruct (data !! "sentiment_score") as [score |]; [| discriminate].
  destruct (data !! "timestamp") as [ts |]; [| discriminate].
  destruct (data !! "data_point_count") as [count |]; [| discriminate].
  destruct ticker as [| | | | ticker |]; try discriminate.
  cbn [is_str str_longer_than_5 negb orb].
  destruct (5 <? len ticker) eqn:Hl; [discriminate |].
  destruct (is_int_or_float score) eqn:Hs1; [| discriminate].
  destruct (num_in_unit_range score) eqn:Hs2; [| discriminate].
  destruct (is_int_or_float ts) eqn:Hts; [| discriminate].
  destruct (is_int count) eqn:Hc1; [| discriminate].
  destruct (int_negative count) eqn:Hc2; [discriminate |].
  cbn [negb orb]. intros H.
  exists ticker, score, ts, count.
  repeat (split; [first [reflexivity | assumption | lia] |]).
  intros source Hsrc. rewrite Hsrc in H.
  destruct (is_str source); [reflexivity | discriminate].
Qed.

(** X1: [validate_schema_compatibility] answers [True] exactly for the
    dictionaries that hold a string of at most five characters under
    ["ticker"], a number between -1 and 1 under ["sentiment_score"], an
    integer or a float under ["timestamp"], a non-negative integer under
    ["data_point_count"], and, if there is a ["source"], a string there. *)
Theorem schema_accepts_exactly_conforming_rows (data : dict) w :
  fst (validate_schema_compatibility data w) = true <->
  exists ticker score ts count,
    data !! "ticker" = Some (VStr ticker) /\ len ticker <= 5 /\
    data !! "sentiment_score" = Some score /\
    is_int_or_float score = true /\ num_in_unit_range score = true /\
    data !! "timestamp" = Some ts /\ is_int_or_float ts = true /\
    data !! "data_point_count" = Some count /\
    is_int count = true /\ int_negative count = false /\
    (forall source, data !! "source" = Some source -> is_str source = true).
Proof.
  rewrite validate_result. split; [apply schema_ok_inv |].
  intros (ticker & score & ts & count & Ht & Hl & Hs & Hs1 & Hs2 & Hts & Hts1 &
          Hc & Hc1 & Hc2 & Hsrc).
  unfold schema_ok, validate_schema_compatibility.
  rewrite Ht, Hs, Hts, Hc. cbn [is_str str_longer_than_5 negb orb].
  replace (5 <? len ticker) with false by lia.
  rewrite Hs1, Hs2, Hts1, Hc1, Hc2. cbn [negb orb].
  destruct (data !! "source") as [source |] eqn:Hsource; [| reflexivity].
  rewrite (Hsrc source eq_refl). reflexivity.
Qed.

(** X2: the schema filter keeps exactly the rows the schema accepts, in
    their input order; it never calls the store, and it logs one
    warning for each row it drops. *)
Theorem schema_filter_keeps_accepted_rows_in_order data w :
  let '(kept, w') := schema_valid_rows data w in
  kept = List.filter schema_ok data /\
  w_calls w' = w_calls w /\
  length (w_log w') = (length (w_log w) + (length data - length kept))%nat.
Proof.
  pose proof (schema_valid_rows_result data w) as Hk.
  pose proof (schema_valid_rows_keeps_calls data w) as Hc.
  assert (Hl : length (w_log (snd (schema_valid_rows data w))) =
               (length (w_log w) +
                (length data - length (List.filter schema_ok data)))%nat).
  { clear Hk Hc. revert w.
    induction data as [| row rest IH]; intros w; [cbn; lia |].
    cbn [schema_valid_rows List.filter]. run_m.
    pose proof (validate_log_length row w) as Hv.
    destruct (validate_schema_compatibility row w) as [ok w1]. cbn [snd] in Hv.
    pose proof (IH w1) as Hr.
    destruct (schema_valid_rows rest w1) as [kept w2]. cbn [snd] in *.
    pose proof (List.filter_length_le schema_ok rest) as Hle.
    destruct (schema_ok row); cbn [length] in *; lia. }
  destruct (schema_valid_rows data w) as [kept w']. cbn [fst snd] in *.
  subst kept. repeat split; assumption.
Qed.


(** X3: [insert_data] never sends a row that the schema refuses.  When no
    row is accepted it returns [False] without calling the store;
    otherwise it makes exactly one insertion, of the accepted rows in
    their input order, and returns [True] exactly when the store reports
    no row error. *)
Theorem insert_data_sends_accepted_rows_once cfg bq dataset_id table_id data w :
  let kept := List.filter schema_ok data in
  let table := BigQueryClient.table_ref cfg dataset_id table_id in
  let '(r, w') := BigQueryClient.insert_data cfg bq dataset_id table_id data w in
  (kept = [] -> r = false /\ w_calls w' = w_calls w) /\
  (kept <> [] ->
     w_calls w' = w_calls w ++ [CallInsertRowsJson table kept] /\
     (r = true <-> bq_insert bq (w_calls w) table kept = InsertErrors [])).
Proof.
  cbv zeta. unfold BigQueryClient.insert_data.
  destruct data as [| row rest].
  { run_m. split; [intros _; split; reflexivity | intros H; now destruct H]. }
  run_m.
  pose proof (schema_valid_rows_result (row :: rest) w) as Hk.
  pose proof (schema_valid_rows_keeps_calls (row :: rest) w) as Hc.
  destruct (schema_valid_rows (row :: rest) w) as [kept w1].
  cbn [fst snd] in Hk, Hc. rewrite <- Hk. clear Hk.
  destruct kept as [| k ks].
  { destruct (length [] <? length (row :: rest))%nat; cbv beta iota; cbn [w_calls];
      (split; [intros _; split; [reflexivity | exact Hc] | intros H; now destruct H]). }
  destruct (length (k :: ks) <? length (row :: rest))%nat; cbv beta iota; cbn [w_calls];
    rewrite ?Hc;
    (destruct (bq_insert bq (w_calls w) _ (k :: ks)) as [[| err errs] | e];
     cbv beta iota; cbn [w_calls]; rewrite ?Hc;
     (split; [discriminate | intros _; split; [reflexivity | split; congruence]])).
Qed.

(** X4: for a non-empty input, [load_to_bigquery] makes exactly one
    insertion, of the rows the schema accepts in their input order (of no
    row when it accepts none), and returns [True] exactly when the store
    reports no row error. *)
Theorem load_to_bigquery_inserts_once cfg bq data w :
  data <> [] ->
  let kept := List.filter schema_ok data in
  let table := SentimentPipeline.table_ref cfg in
  let '(r, w') := SentimentPipeline.load_to_bigquery cfg bq data w in
  w_calls w' = w_calls w ++ [CallInsertRowsJson table kept] /\
  (r = true <-> bq_insert bq (w_calls w) table kept = InsertErrors []).
Proof.
  intros Hne. cbv zeta. unfold SentimentPipeline.load_to_bigquery.
  destruct data as [| row rest]; [congruence |].
  run_m.
  pose proof (schema_valid_rows_result (row :: rest) w) as Hk.
  pose proof (schema_valid_rows_keeps_calls (row :: rest) w) as Hc.
  destruct (schema_valid_rows (row :: rest) w) as [kept w1].
  cbn [fst snd] in Hk, Hc. rewrite <- Hk. clear Hk.
  destruct (length kept <? length (row :: rest))%nat; cbv beta iota; cbn [w_calls];
    rewrite ?Hc;
    (destruct (bq_insert bq (w_calls w) _ kept) as [[| err errs] | e];
     cbv beta iota; cbn [w_calls]; rewrite ?Hc; (split; [reflexivity | split; congruence])).
Qed.

Lemma load_to_bigquery_inserts_once_witness :
  let kept := List.filter schema_ok [invalid_row; valid_row] in
  let table := SentimentPipeline.table_ref cfg0 in
  let '(r, w') :=
    SentimentPipeline.load_to_bigquery cfg0 empty_store [invalid_row; valid_row] world0 in
  w_calls w' = w_calls world0 ++ [CallInsertRowsJson table kept] /\
  (r = true <-> bq_insert empty_store (w_calls world0) table kept = InsertErrors []).
Proof.
  apply (load_to_bigquery_inserts_once cfg0 empty_store [invalid_row; valid_row] world0).
  discriminate.
Defined.

(** ** The analyzer and the transform step *)

(** Lookups in a dictionary literal. *)
Ltac lookup_literal :=
  repeat first
    [ rewrite lookup_insert_eq
    | rewrite lookup_insert_ne by discriminate
    | rewrite lookup_singleton_eq
    | rewrite lookup_singleton_ne by discriminate ].

(** A record that [analyze_text] returns, read backwards. *)
Lemma analyze_text_some_inv polarity text ticker ts w s :
  fst (SentimentAnalyzer.analyze_text polarity text ticker ts w) = Some s ->
  exists x t p,
    text = VStr x /\ x <> "" /\ ticker = VStr t /\ ticker_rejected t = false /\
    polarity x = Polarity p /\ s = SentimentScore.Make t p ts 1 None.
Proof.
  unfold SentimentAnalyzer.analyze_text.
  destruct text as [| | | | x |]; try (cbn; discriminate).
  cbn [truthy]. destruct (String.eqb x "") eqn:Hx; [cbn; discriminate |].
  cbn [negb]. destruct (negb (truthy ticker)) eqn:Hk; [cbn; discriminate |].
  destruct (polarity x) as [p | e] eqn:Hp; [| destruct ticker; cbn; discriminate].
  destruct ticker as [| | | | t |]; try (cbn; discriminate).
  run_m. destruct (ticker_rejected t) eqn:Ht.
  - pose proof (init_rejected_ticker t p ts 1 None w Ht) as He.
    destruct (SentimentScore.__init__ t p ts 1 None w) as [r w1]. cbn [fst] in He.
    unfold SentimentScore.is_valid. rewrite He. cbn. discriminate.
  - rewrite init_accepted_ticker by assumption. cbn. intros [= <-].
    exists x, t, p. apply String.eqb_neq in Hx. repeat split; assumption.
Qed.

Lemma analyze_text_some polarity x t p ts w :
  x <> "" -> ticker_rejected t = false -> polarity x = Polarity p ->
  fst (SentimentAnalyzer.analyze_text polarity (VStr x) (VStr t) ts w) =
    Some (SentimentScore.Make t p ts 1 None).
Proof.
  intros Hx Ht Hp. unfold SentimentAnalyzer.analyze_text.
  cbn [truthy]. apply String.eqb_neq in Hx. rewrite Hx. cbn [negb].
  assert (Hne : String.eqb t "" = false).
  { destruct t; [discriminate Ht | reflexivity]. }
  rewrite Hne, Hp. cbn [negb]. run_m.
  rewrite init_accepted_ticker by assumption. reflexivity.
Qed.

(** The analyzer only writes to the log, and what it returns does not
    depend on the log. *)
Lemma analyze_text_world polarity text ticker ts w :
  w_calls (snd (SentimentAnalyzer.analyze_text polarity text ticker ts w)) = w_calls w /\
  fst (SentimentAnalyzer.analyze_text polarity text ticker ts w) =
    fst (SentimentAnalyzer.analyze_text polarity text ticker ts world0).
Proof.
  unfold SentimentAnalyzer.analyze_text, SentimentScore.__init__. run_m.
  repeat case_match; simplify_eq/=; try discriminate; split; reflexivity.
Qed.

Lemma analyze_item_world polarity iso_to_epoch item w :
  w_calls (snd (SentimentAnalyzer.analyze_item polarity iso_to_epoch item w)) = w_calls w /\
  fst (SentimentAnalyzer.analyze_item polarity iso_to_epoch item w) =
    fst (SentimentAnalyzer.analyze_item polarity iso_to_epoch item world0).
Proof.
  unfold SentimentAnalyzer.analyze_item.
  destruct (default VNone (item !! "timestamp")) as [| b | ts | f | s | d];
    try (split; reflexivity); try apply analyze_text_world.
  destruct (iso_to_epoch s); [apply analyze_text_world | split; reflexivity].
Qed.

Lemma analyze_items_world polarity iso_to_epoch data : forall w,
  w_calls (snd (SentimentAnalyzer.analyze_items polarity iso_to_epoch data w)) = w_calls w /\
  fst (SentimentAnalyzer.analyze_items polarity iso_to_epoch data w) =
    omap (item_result polarity iso_to_epoch) data.
Proof.
  induction data as [| item rest IH]; intros w; [split; reflexivity |].
  cbn [SentimentAnalyzer.analyze_items omap]. run_m.
  destruct (analyze_item_world polarity iso_to_epoch item w) as [Hc Hr].
  destruct (SentimentAnalyzer.analyze_item polarity iso_to_epoch item w) as [score w1].
  cbn [fst snd] in Hc, Hr.
  destruct (IH w1) as [Hc' Hr'].
  destruct (SentimentAnalyzer.analyze_items polarity iso_to_epoch rest w1) as [results w2].
  cbn [fst snd] in *. split; [congruence |].
  subst score results. reflexivity.
Qed.

Lemma analyze_batch_world polarity iso_to_epoch data w :
  w_calls (snd (SentimentAnalyzer.analyze_batch polarity iso_to_epoch data w)) = w_calls w /\
  fst (SentimentAnalyzer.analyze_batch polarity iso_to_epoch data w) =
    omap (item_result polarity iso_to_epoch) data.
Proof.
  unfold SentimentAnalyzer.analyze_batch.
  destruct data as [| item rest]; [split; reflexivity |].
  run_m. destruct (analyze_items_world polarity iso_to_epoch (item :: rest) w) as [Hc Hr].
  destruct (SentimentAnalyzer.analyze_items polarity iso_to_epoch (item :: rest) w)
    as [results w1].
  cbn [fst snd] in *. split; assumption.
Qed.

Lemma transform_world polarity iso_to_epoch raw_data w :
  w_calls (snd (SentimentPipeline.transform polarity iso_to_epoch raw_data w)) = w_calls w /\
  fst (SentimentPipeline.transform polarity iso_to_epoch raw_data w) =
    map SentimentPipeline.score_row (omap (item_result polarity iso_to_epoch) raw_data).
Proof.
  unfold SentimentPipeline.transform.
  destruct raw_data as [| item rest]; [split; reflexivity |].
  run_m. destruct (analyze_batch_world polarity iso_to_epoch (item :: rest) w) as [Hc Hr].
  destruct (SentimentAnalyzer.analyze_batch polarity iso_to_epoch (item :: rest) w)
    as [scores w1].
  cbn [fst snd] in *. rewrite Hr. split; [assumption | reflexivity].
Qed.

Lemma item_result_some_inv polarity iso_to_epoch item s :
  item_result polarity iso_to_epoch item = Some s ->
  exists x t p,
    item !! "text" = Some (VStr x) /\ x <> "" /\
    item !! "ticker" = Some (VStr t) /\ ticker_rejected t = false /\
    polarity x = Polarity p /\
    s = SentimentScore.Make t p (SentimentScore.timestamp s) 1 None.
Proof.
  unfold item_result, SentimentAnalyzer.analyze_item. intros H.
  assert (Hts : exists ts,
    fst (SentimentAnalyzer.analyze_text polarity (default (VStr "") (item !! "text"))
           (default (VStr "") (item !! "ticker")) ts world0) = Some s).
  { destruct (default VNone (item !! "timestamp")) as [| b | ts | f | str | d];
      try discriminate H; eauto.
    destruct (iso_to_epoch str); [eauto | discriminate H]. }
  destruct Hts as [ts Hts].
  apply analyze_text_some_inv in Hts.
  destruct Hts as (x & t & p & Hx & Hxne & Ht & Htok & Hp & ->).
  exists x, t, p. cbn [SentimentScore.timestamp].
  destruct (item !! "text") as [v |]; cbn in Hx; [subst v | congruence].
  destruct (item !! "ticker") as [v |]; cbn in Ht; [subst v |].
  - repeat split; assumption.
  - injection Ht as <-. discriminate Htok.
Qed.

Lemma omap_length_le {A B} (f : A -> option B) (l : list A) :
  (length (omap f l) <= length l)%nat.
Proof.
  induction l as [| a l IH]; [reflexivity |].
  change (omap f (a :: l)) with
    (match f a with Some y => y :: omap f l | None => omap f l end).
  destruct (f a); cbn [length]; lia.
Qed.

(** The rows of [transform] never pass the schema: their ["timestamp"]
    is a [datetime], which is neither an [int] nor a [float]. *)
Lemma score_row_refused score : schema_ok (SentimentPipeline.score_row score) = false.
Proof.
  unfold schema_ok, validate_schema_compatibility, SentimentPipeline.score_row.
  lookup_literal. cbn [is_str str_longer_than_5 negb orb is_int_or_float num_in_unit_range].
  destruct (5 <? len (SentimentScore.ticker score)); [reflexivity |].
  destruct (float_in_unit_range (SentimentScore.sentiment_score score)); reflexivity.
Qed.

(** X5: [analyze_text] returns a record exactly when the text is a
    non-empty string, the ticker is a string that passes the ticker test
    and the scorer succeeds; the record then holds that ticker, the
    scorer's polarity as it is, the given timestamp, a count of 1 and no
    error. *)
Theorem analyze_text_returns_record_iff polarity text ticker ts w s :
  fst (SentimentAnalyzer.analyze_text polarity text ticker ts w) = Some s <->
  exists x t p,
    text = VStr x /\ x <> "" /\ ticker = VStr t /\ ticker_rejected t = false /\
    polarity x = Polarity p /\ s = SentimentScore.Make t p ts 1 None.
Proof.
  split; [apply analyze_text_some_inv |].
  intros (x & t & p & -> & Hx & -> & Ht & Hp & ->).
  now apply analyze_text_some.
Qed.

(** X6: [analyze_batch] never calls the store and returns at most one
    record per item.  Every record it returns is valid, has a count of 1
    and a ticker that passes the ticker test, and comes from an item of
    the batch: its ticker is the item's, and its score is the scorer's
    polarity of the item's text. *)
Theorem analyze_batch_records polarity iso_to_epoch data w :
  let '(scores, w') := SentimentAnalyzer.analyze_batch polarity iso_to_epoch data w in
  (length scores <= length data)%nat /\
  w_calls w' = w_calls w /\
  forall s, s ∈ scores ->
    SentimentScore.is_valid s = true /\
    SentimentScore.data_point_count s = 1 /\
    ticker_rejected (SentimentScore.ticker s) = false /\
    exists item x,
      item ∈ data /\ item !! "text" = Some (VStr x) /\
      item !! "ticker" = Some (VStr (SentimentScore.ticker s)) /\
      polarity x = Polarity (SentimentScore.sentiment_score s).
Proof.
  destruct (analyze_batch_world polarity iso_to_epoch data w) as [Hc Hr].
  destruct (SentimentAnalyzer.analyze_batch polarity iso_to_epoch data w) as [scores w'].
  cbn [fst snd] in *. subst scores.
  split; [apply omap_length_le |]. split; [exact Hc |].
  intros s Hs. apply list_elem_of_omap in Hs. destruct Hs as (item & Hin & Hres).
  apply item_result_some_inv in Hres.
  destruct Hres as (x & t & p & Hx & _ & Ht & Htok & Hp & Hs).
  rewrite Hs. cbn. repeat split; try assumption.
  exists item, x. repeat split; assumption.
Qed.


(** X8: no row that [transform] returns passes
    [validate_schema_compatibility]: [transform] stores a [datetime]
    under ["timestamp"], and the schema test wants an [int] or a
    [float] there. *)
Theorem transformed_rows_fail_schema polarity iso_to_epoch raw_data w w' row :
  row ∈ fst (SentimentPipeline.transform polarity iso_to_epoch raw_data w) ->
  fst (validate_schema_compatibility row w') = false.
Proof.
  rewrite (proj2 (transform_world _ _ _ _)), validate_result.
  intros H. apply list_elem_of_In, in_map_iff in H.
  destruct H as (score & <- & _). apply score_row_refused.
Qed.

Lemma transformed_rows_fail_schema_witness :
  fst (validate_schema_compatibility
         (SentimentPipeline.score_row (SentimentScore.Make "AAPL" 0.5%float 1743076800 1 None))
         world0) = false.
Proof.
  apply (transformed_rows_fail_schema (fun _ => Polarity 0.5%float)
           (fun _ => Some 1743076800) [raw_record_timestamp_key] world0 world0).
  vm_compute. left.
Defined.


(** ** The ticker test and the record constructor *)

(** The ticker test, spelled out: a ticker passes when it has between one
    and five characters, all of them alphanumeric. *)
Lemma ticker_accepted_iff ticker :
  ticker_rejected ticker = false <-> 1 <= len ticker <= 5 /\ all_alnum ticker = true.
Proof.
  unfold ticker_rejected, isalnum, len. cbn [truthy].
  destruct ticker as [| c rest].
  - cbn. split; [discriminate | intros [H _]; lia].
  - cbn [String.eqb negb orb String.length].
    destruct (all_alnum (String c rest)); cbn [negb orb].
    + destruct (5 <? Z.of_nat (S (String.length rest))) eqn:Hl.
      * apply Z.ltb_lt in Hl. split; [discriminate | intros [H _]; cbn [String.length] in H; lia].
      * apply Z.ltb_ge in Hl.
        split; [intros _; split; [cbn [String.length]; lia | reflexivity] | reflexivity].
    + split; [discriminate | intros [_ H]; discriminate].
Qed.

(** X10: the constructor keeps its arguments as they are when the ticker
    has one to five alphanumeric characters; for every other ticker it
    keeps the four fields and stores one and the same ticker message as
    the error, whatever error was passed in. *)
Theorem init_ticker_check ticker score ts count err w :
  (1 <= len ticker <= 5 /\ all_alnum ticker = true ->
   fst (SentimentScore.__init__ ticker score ts count err w) =
     SentimentScore.Make ticker score ts count err) /\
  (~ (1 <= len ticker <= 5 /\ all_alnum ticker = true) ->
   fst (SentimentScore.__init__ ticker score ts count err w) =
     SentimentScore.Make ticker score ts count
       (Some "Ticker must be a non-empty string (max 5 characters)")).
Proof.
  split; intros H.
  - apply ticker_accepted_iff in H. now rewrite init_accepted_ticker.
  - destruct (ticker_rejected ticker) eqn:Ht.
    + unfold SentimentScore.__init__. rewrite Ht. reflexivity.
    + apply ticker_accepted_iff in Ht. contradiction.
Qed.

(** X11: [from_dict] undoes [to_dict] on every record that the
    constructor builds: the dictionary of such a record is read back as
    the same record. *)
Theorem from_dict_to_dict_round_trip ticker score ts count err w w' :
  let r := fst (SentimentScore.__init__ ticker score ts count err w) in
  fst (SentimentScore.from_dict (SentimentScore.to_dict r) w') = Some r.
Proof.
  cbv zeta. unfold SentimentScore.from_dict, SentimentScore.to_dict.
  lookup_literal. cbn [default from_option id].
  destruct (ticker_rejected ticker) eqn:Ht.
  - unfold SentimentScore.__init__ at 1 2 3 4 5. rewrite Ht. run_m.
    cbn [SentimentScore.set_error SentimentScore.ticker SentimentScore.sentiment_score
         SentimentScore.timestamp SentimentScore.data_point_count SentimentScore.error
         SentimentScore.as_str SentimentScore.as_float SentimentScore.as_int
         SentimentScore.as_optional_str].
    unfold SentimentScore.__init__. rewrite Ht. reflexivity.
  - rewrite init_accepted_ticker by assumption.
    cbn [fst SentimentScore.ticker SentimentScore.sentiment_score
         SentimentScore.timestamp SentimentScore.data_point_count SentimentScore.error
         SentimentScore.as_str SentimentScore.as_float SentimentScore.as_int].
    destruct err as [e |]; cbn [SentimentScore.as_optional_str]; run_m;
      rewrite init_accepted_ticker by assumption; reflexivity.
Qed.

(** ** The service entry points *)

(** X12: a request whose ticker fails the ticker test never reaches the
    store: [get_stock_sentiment] returns one error dictionary,
    [stream_stock_sentiment] yields that dictionary alone, and neither
    records a call. *)
Theorem rejected_ticker_never_reaches_store pb2 cfg bq ticker timeframe st et interval w :
  ticker_rejected ticker = true ->
  let d := error_message "Ticker must be a valid alphanumeric string (max 5 characters)" in
  let w' := World (w_log w ++ [Log WARNING "Invalid ticker received: "]) (w_calls w) in
  SentimentService.get_stock_sentiment pb2 cfg bq ticker timeframe w = (d, w') /\
  SentimentService.stream_stock_sentiment pb2 cfg bq ticker st et interval w = ([d], w').
Proof.
  intros Ht. cbv zeta.
  unfold SentimentService.get_stock_sentiment, SentimentService.stream_stock_sentiment.
  rewrite Ht. split; reflexivity.
Qed.

Lemma rejected_ticker_never_reaches_store_witness :
  let d := error_message "Ticker must be a valid alphanumeric string (max 5 characters)" in
  let w' := World (w_log world0 ++ [Log WARNING "Invalid ticker received: "]) (w_calls world0) in
  SentimentService.get_stock_sentiment pb2_0 cfg0 sample_store "BRK.B" 1 world0 = (d, w') /\
  SentimentService.stream_stock_sentiment pb2_0 cfg0 sample_store "BRK.B"
    (MkTimestamp 1711496400 0) (MkTimestamp 1711507200 0) 2 world0 = ([d], w').
Proof.
  apply (rejected_ticker_never_reaches_store pb2_0 cfg0 sample_store "BRK.B" 1
           (MkTimestamp 1711496400 0) (MkTimestamp 1711507200 0) 2 world0).
  reflexivity.
Defined.




Lemma error_message_carries_error text : is_Some (error_message text !! "error").
Proof. unfold error_message. rewrite lookup_singleton_eq. eauto. Qed.

(** X14: whatever the request and the store do, the messages of
    [stream_stock_sentiment] are data messages without an ["error"]
    entry, followed by at most one error message, which closes the
    stream; and the stream sends at most one query. *)
Theorem stream_error_closes_stream pb2 cfg bq ticker st et interval w :
  let '(msgs, w') := SentimentService.stream_stock_sentiment pb2 cfg bq ticker st et interval w in
  (exists data closing,
     msgs = data ++ closing /\ ~ carries_error data /\
     (closing = [] \/ exists text, closing = [error_message text])) /\
  (w_calls w' = w_calls w \/ exists q, w_calls w' = w_calls w ++ [q]).
Proof.
  destruct (ticker_rejected ticker) eqn:Ht; [| destruct (Z.leb (seconds et) (seconds st)) eqn:Hr].
  - destruct (stream_ill_formed pb2 cfg bq ticker st et interval w (or_introl Ht))
      as (d & w' & -> & Hd & Hc).
    split; [| left; exact Hc].
    exists [], [d]. split; [reflexivity |].
    split; [intros (d' & Hd' & _); inversion Hd' |].
    right. destruct Hd as [-> | ->]; eauto.
  - apply Z.leb_le in Hr.
    destruct (stream_ill_formed pb2 cfg bq ticker st et interval w (or_intror Hr))
      as (d & w' & -> & Hd & Hc).
    split; [| left; exact Hc].
    exists [], [d]. split; [reflexivity |].
    split; [intros (d' & Hd' & _); inversion Hd' |].
    right. destruct Hd as [-> | ->]; eauto.
  - apply Z.leb_gt in Hr. rewrite stream_well_formed by assumption. cbv zeta.
    destruct (bq_aggregate bq _ _ _ _) as [rows [e |]].
    + split; [| right; eexists; reflexivity].
      exists (map (SentimentService.bucket_message ticker) rows),
             [error_message ("Internal server error: " +:+ e)].
      split; [reflexivity |]. split; [apply bucket_messages_carry_no_error | right; eauto].
    + split; [| right; eexists; reflexivity].
      exists (map (SentimentService.bucket_message ticker) rows), [].
      split; [now rewrite app_nil_r |].
      split; [apply bucket_messages_carry_no_error | now left].
Qed.

(** X15: when the store fails after it has yielded some rows, the
    stream still holds one data message for each of those rows, in the
    store's order, and then exactly one "Internal server error" message. *)
Theorem stream_partial_failure pb2 cfg bq ticker st et interval w rows e :
  ticker_rejected ticker = false ->
  seconds st < seconds et ->
  bq_aggregate bq (w_calls w) SqlStreamStockSentiment (SentimentService.table_name cfg)
    (stream_params ticker st et
       (default 3600 (SentimentService.interval_map pb2 !! interval))) =
    Reply rows (Some e) ->
  fst (SentimentService.stream_stock_sentiment pb2 cfg bq ticker st et interval w) =
    map (SentimentService.bucket_message ticker) rows ++
    [error_message ("Internal server error: " +:+ e)].
Proof.
  intros Ht Hr Hq. rewrite stream_well_formed by assumption. cbv zeta.
  rewrite Hq. reflexivity.
Qed.

Lemma stream_partial_failure_witness :
  fst (SentimentService.stream_stock_sentiment pb2_0 cfg0 flaky_store "TSLA"
         (MkTimestamp 1711496400 0) (MkTimestamp 1711507200 0) 2 world0) =
    map (SentimentService.bucket_message "TSLA") sample_stream_rows ++
    [error_message ("Internal server error: " +:+ "deadline exceeded")].
Proof.
  apply (stream_partial_failure pb2_0 cfg0 flaky_store "TSLA"
           (MkTimestamp 1711496400 0) (MkTimestamp 1711507200 0) 2 world0
           sample_stream_rows "deadline exceeded").
  - reflexivity.
  - cbn. lia.
  - reflexivity.
Defined.

(** ** The gRPC entry point [GetStockSentiment] *)

(** Reading back the error dictionary of the service: the ticker defaults
    to the empty string, which the constructor rejects, so the error
    text of the dictionary is overwritten. *)
Lemma from_dict_error_message text w :
  fst (SentimentScore.from_dict (error_message text) w) =
    Some (SentimentScore.Make "" 0%float 0 0
            (Some "Ticker must be a non-empty string (max 5 characters)")).
Proof.
  unfold SentimentScore.from_dict, error_message.
  lookup_literal. reflexivity.
Qed.




(** X17: [GetStockSentiment] never reaches the store with a ticker that
    fails the ticker test.  An empty ticker gets an empty response and
    the status INVALID_ARGUMENT "Ticker is required"; any other such
    ticker gets a response with an empty ticker and the constructor's
    ticker message, not the message of the service. *)
Theorem GetStockSentiment_rejected_ticker pb2 cfg bq ticker timeframe w :
  ticker_rejected ticker = true ->
  let '(answer, w') := SentimentServiceServicer.GetStockSentiment pb2 cfg bq ticker timeframe w in
  w_calls w' = w_calls w /\
  answer =
    Some (if String.eqb ticker ""
          then (SentimentServiceServicer.EmptyResponse,
                SentimentServiceServicer.InvalidArgument "Ticker is required")
          else (hidden_error_response, SentimentServiceServicer.StatusUnset)).
Proof.
  intros Ht. unfold SentimentServiceServicer.GetStockSentiment. cbn [truthy].
  destruct (String.eqb ticker "") eqn:He; cbn [negb]; run_m; [split; reflexivity |].
  unfold SentimentService.get_stock_sentiment. rewrite Ht. run_m.
  match goal with |- context [SentimentScore.from_dict ?d ?w1] =>
    pose proof (from_dict_error_message
      "Ticker must be a valid alphanumeric string (max 5 characters)" w1) as Hf;
    assert (Hc : w_calls (snd (SentimentScore.from_dict d w1)) = w_calls w)
      by (unfold SentimentScore.from_dict; lookup_literal; reflexivity);
    unfold error_message in Hf;
    destruct (SentimentScore.from_dict d w1) as [score w2] end.
  cbn [fst snd] in *. subst score. split; [exact Hc | reflexivity].
Qed.

Lemma GetStockSentiment_rejected_ticker_witness :
  let '(answer, w') :=
    SentimentServiceServicer.GetStockSentiment pb2_0 cfg0 sample_store "TOOLONG" 1 world0 in
  w_calls w' = w_calls world0 /\
  answer =
    Some (if String.eqb "TOOLONG" ""
          then (SentimentServiceServicer.EmptyResponse,
                SentimentServiceServicer.InvalidArgument "Ticker is required")
          else (hidden_error_response, SentimentServiceServicer.StatusUnset)).
Proof.
  apply (GetStockSentiment_rejected_ticker pb2_0 cfg0 sample_store "TOOLONG" 1 world0).
  reflexivity.
Defined.

(** ** Ticker extraction *)

Lemma is_upper_alnum c : XDataFetcher.is_upper c = true -> char_isalnum c = true.
Proof.
  unfold XDataFetcher.is_upper, char_isalnum. cbv zeta. intros H.
  rewrite H. rewrite orb_true_r. reflexivity.
Qed.

Lemma all_upper_alnum t : all_upper t = true -> all_alnum t = true.
Proof.
  induction t as [| c t IH]; [reflexivity |].
  cbn [all_upper all_alnum]. intros H. apply andb_true_iff in H. destruct H as [Hc Ht].
  rewrite (is_upper_alnum c Hc), (IH Ht). reflexivity.
Qed.

Lemma match_upper_spec k : forall s t,
  XDataFetcher.match_upper k s = Some t ->
  String.length t = k /\ all_upper t = true /\
  exists post, s = t +:+ post /\ word_boundary post.
Proof.
  induction k as [| k IH]; intros s t H.
  - destruct s as [| c rest]; cbn in H.
    + injection H as <-. repeat split. exists "". split; [reflexivity | exact I].
    + destruct (XDataFetcher.is_word_char c) eqn:Hw; [discriminate |].
      injection H as <-. repeat split. exists (String c rest). split; [reflexivity | exact Hw].
  - destruct s as [| c rest]; cbn [XDataFetcher.match_upper] in H; [discriminate |].
    destruct (XDataFetcher.is_upper c) eqn:Hc; [| discriminate].
    destruct (XDataFetcher.match_upper k rest) as [letters |] eqn:Hm; [| discriminate].
    injection H as <-. destruct (IH rest letters Hm) as (Hl & Hu & post & -> & Hb).
    cbn [String.length all_upper]. rewrite Hc, Hu, Hl.
    repeat split. exists post. split; [reflexivity | exact Hb].
Qed.

Lemma match_ticker_spec s t :
  XDataFetcher.match_ticker s = Some t ->
  (1 <= String.length t <= 5)%nat /\ all_upper t = true /\
  exists post, s = t +:+ post /\ word_boundary post.
Proof.
  unfold XDataFetcher.match_ticker. cbn [fold_right]. intros H.
  repeat match type of H with
  | match XDataFetcher.match_upper ?k s with _ => _ end = Some t =>
      let Hm := fresh "Hm" in
      destruct (XDataFetcher.match_upper k s) as [t' |] eqn:Hm;
        [injection H as ->; apply match_upper_spec in Hm;
         destruct Hm as (Hl & Hu & Hp);
         (split; [lia |]); (split; [exact Hu | exact Hp]) |]
  end.
  discriminate H.
Qed.

Lemma search_ticker_spec text : forall t,
  XDataFetcher.search_ticker text = Some t ->
  (1 <= String.length t <= 5)%nat /\ all_upper t = true /\
  exists pre post, text = pre +:+ "$" +:+ t +:+ post /\ word_boundary post.
Proof.
  induction text as [| c rest IH]; intros t H; [discriminate H |].
  cbn [XDataFetcher.search_ticker] in H.
  assert (Hrest : XDataFetcher.search_ticker rest = Some t ->
            (1 <= String.length t <= 5)%nat /\ all_upper t = true /\
            exists pre post, String c rest = pre +:+ "$" +:+ t +:+ post /\ word_boundary post).
  { intros Hs. destruct (IH t Hs) as (Hl & Hu & pre & post & -> & Hb).
    split; [exact Hl |]. split; [exact Hu |]. exists (String c pre), post.
    split; [reflexivity | exact Hb]. }
  destruct (Ascii.eqb c "$") eqn:Hc; [| exact (Hrest H)].
  apply Ascii.eqb_eq in Hc. subst c.
  destruct (XDataFetcher.match_ticker rest) as [t' |] eqn:Hm; [| exact (Hrest H)].
  injection H as ->. apply match_ticker_spec in Hm.
  destruct Hm as (Hl & Hu & post & -> & Hb).
  split; [exact Hl |]. split; [exact Hu |]. exists "", post.
  split; [reflexivity | exact Hb].
Qed.

(** X18: a ticker that [_extract_ticker] finds has one to five
    characters, all of them upper-case letters, so it passes the ticker
    test of [SentimentScore] and of the service. *)
Theorem extracted_ticker_is_accepted text :
  XDataFetcher._extract_ticker text <> "" ->
  1 <= len (XDataFetcher._extract_ticker text) <= 5 /\
  all_upper (XDataFetcher._extract_ticker text) = true /\
  ticker_rejected (XDataFetcher._extract_ticker text) = false.
Proof.
  unfold XDataFetcher._extract_ticker.
  destruct (XDataFetcher.search_ticker text) as [t |] eqn:Hs; cbn [default from_option id];
    [| congruence].
  intros _. apply search_ticker_spec in Hs. destruct Hs as (Hl & Hu & _).
  assert (Hlen : 1 <= len t <= 5) by (unfold len; lia).
  split; [exact Hlen |]. split; [exact Hu |].
  apply ticker_accepted_iff. split; [exact Hlen | now apply all_upper_alnum].
Qed.

Lemma extracted_ticker_is_accepted_witness :
  1 <= len (XDataFetcher._extract_ticker "Loving $AAPL today!") <= 5 /\
  all_upper (XDataFetcher._extract_ticker "Loving $AAPL today!") = true /\
  ticker_rejected (XDataFetcher._extract_ticker "Loving $AAPL today!") = false.
Proof.
  apply (extracted_ticker_is_accepted "Loving $AAPL today!").
  vm_compute. discriminate.
Defined.

(** X19: a ticker that [_extract_ticker] finds stands in the text right
    after a dollar sign, and is followed by the end of the text or by a
    character that is not a word character. *)
Theorem extracted_ticker_occurs_in_text text :
  XDataFetcher._extract_ticker text <> "" ->
  exists pre post,
    text = pre +:+ "$" +:+ XDataFetcher._extract_ticker text +:+ post /\
    word_boundary post.
Proof.
  unfold XDataFetcher._extract_ticker.
  destruct (XDataFetcher.search_ticker text) as [t |] eqn:Hs; cbn [default from_option id];
    [| congruence].
  intros _. apply search_ticker_spec in Hs. destruct Hs as (_ & _ & Hocc). exact Hocc.
Qed.

Lemma extracted_ticker_occurs_in_text_witness :
  exists pre post,
    "$TSLA is terrible!" =
      pre +:+ "$" +:+ XDataFetcher._extract_ticker "$TSLA is terrible!" +:+ post /\
    word_boundary post.
Proof.
  apply (extracted_ticker_occurs_in_text "$TSLA is terrible!").
  vm_compute. discriminate.
Defined.

(** The two texts of the fetcher tests, a lower-case symbol and a symbol
    of more than five letters. *)
Lemma extract_ticker_examples :
  XDataFetcher._extract_ticker "Loving $AAPL today!" = "AAPL" /\
  XDataFetcher._extract_ticker "No ticker here" = "" /\
  XDataFetcher._extract_ticker "$aapl to the moon" = "" /\
  XDataFetcher._extract_ticker "$TOOLONG and $MSFT." = "MSFT".
Proof. vm_compute. repeat split. Qed.

(** ** Extraction from the raw-data bucket *)

Lemma ascii_compare_refl a : Ascii.compare a a = Eq.
Proof. unfold Ascii.compare. apply N.compare_refl. Qed.

Lemma string_leb_trans a : forall b c,
  String.leb a b = true -> String.leb b c = true -> String.leb a c = true.
Proof.
  unfold String.leb.
  induction a as [| x a IH]; intros [| y b] [| z c]; cbn [String.compare];
    try reflexivity; try discriminate.
  intros Hab Hbc.
  destruct (Ascii.compare x y) eqn:Exy; try discriminate Hab.
  - apply Ascii.compare_eq_iff in Exy. subst y.
    destruct (Ascii.compare x z) eqn:Exz; try reflexivity; try discriminate Hbc.
    exact (IH b c Hab Hbc).
  - destruct (Ascii.compare y z) eqn:Eyz; try discriminate Hbc.
    + apply Ascii.compare_eq_iff in Eyz. subst z. rewrite Exy. reflexivity.
    + unfold Ascii.compare in *.
      rewrite N.compare_lt_iff in Exy, Eyz.
      replace (N_of_ascii x ?= N_of_ascii z)%N with Lt; [reflexivity |].
      symmetry. apply N.compare_lt_iff. lia.
Qed.

Lemma string_leb_refl a : String.leb a a = true.
Proof.
  unfold String.leb. induction a as [| x a IH]; [reflexivity |].
  cbn [String.compare]. rewrite ascii_compare_refl. exact IH.
Qed.

Lemma string_ltb_leb a b : String.ltb a b = true -> String.leb a b = true.
Proof. unfold String.ltb, String.leb. destruct (String.compare a b); easy. Qed.

Lemma string_not_ltb_leb a b : String.ltb a b = false -> String.leb b a = true.
Proof.
  unfold String.ltb, String.leb. rewrite (String.compare_antisym b a).
  destruct (String.compare a b); cbn; easy.
Qed.

(** The blob that [max] picks is one of the blobs and no blob has a
    greater name. *)
Lemma max_by_name_spec rest : forall best,
  let chosen := SentimentPipeline.max_by_name best rest in
  chosen ∈ best :: rest /\
  forall b, b ∈ best :: rest -> String.leb (blob_name b) (blob_name chosen) = true.
Proof.
  induction rest as [| x rest IH]; intros best; cbv zeta.
  - cbn [SentimentPipeline.max_by_name]. split; [left |].
    intros b Hb. apply list_elem_of_singleton in Hb. subst b. apply string_leb_refl.
  - cbn [SentimentPipeline.max_by_name].
    destruct (String.ltb (blob_name best) (blob_name x)) eqn:Hlt.
    + destruct (IH x) as [Hin Hmax]. split.
      * right. exact Hin.
      * intros b Hb. apply elem_of_cons in Hb. destruct Hb as [-> | Hb]; [| now apply Hmax].
        apply (string_leb_trans _ (blob_name x)); [now apply string_ltb_leb |].
        apply Hmax. left.
    + destruct (IH best) as [Hin Hmax]. split.
      * apply elem_of_cons in Hin. destruct Hin as [-> | Hin]; [left | right; now right].
      * intros b Hb. apply elem_of_cons in Hb. destruct Hb as [-> | Hb]; [apply Hmax; left |].
        apply elem_of_cons in Hb. destruct Hb as [-> | Hb]; [| apply Hmax; now right].
        apply (string_leb_trans _ (blob_name best)); [now apply string_not_ltb_leb |].
        apply Hmax. left.
Qed.

(** X20: the records that [extract_from_gcs] returns are the decoded
    text of one listed blob, and no listed blob has a greater name; the
    extraction never calls BigQuery. *)
Theorem extract_reads_blob_with_greatest_name cfg list_blobs json_loads prefix w blobs :
  list_blobs (SentimentPipeline.bucket_name cfg) prefix = Some blobs ->
  fst (SentimentPipeline.extract_from_gcs cfg list_blobs json_loads prefix w) <> [] ->
  w_calls (snd (SentimentPipeline.extract_from_gcs cfg list_blobs json_loads prefix w)) =
    w_calls w /\
  exists b text,
    b ∈ blobs /\
    (forall b', b' ∈ blobs -> String.leb (blob_name b') (blob_name b) = true) /\
    blob_text b = Some text /\
    json_loads text =
      Some (fst (SentimentPipeline.extract_from_gcs cfg list_blobs json_loads prefix w)).
Proof.
  intros Hl. unfold SentimentPipeline.extract_from_gcs. rewrite Hl.
  destruct blobs as [| first others]; [intros H; now destruct H |].
  destruct (max_by_name_spec others first) as [Hin Hmax].
  destruct (blob_text (SentimentPipeline.max_by_name first others)) as [text |] eqn:Ht;
    [| intros H; now destruct H].
  destruct (json_loads text) as [data |] eqn:Hj; [| intros H; now destruct H].
  intros _. split; [reflexivity |].
  exists (SentimentPipeline.max_by_name first others), text.
  repeat split; assumption.
Qed.

Lemma extract_reads_blob_with_greatest_name_witness :
  let list_blobs := fun _ _ : string =>
    Some [Blob "tweets/2025-03-27_12-00-00.json" (Some "old");
          Blob "tweets/2025-03-28_09-30-00.json" (Some "new");
          Blob "tweets/2025-03-27_18-45-10.json" (Some "mid")] in
  let json_loads := fun text : string =>
    if String.eqb text "new" then Some [raw_record] else Some [] in
  w_calls (snd (SentimentPipeline.extract_from_gcs cfg0 list_blobs json_loads "tweets" world0)) =
    w_calls world0 /\
  exists b text,
    b ∈ [Blob "tweets/2025-03-27_12-00-00.json" (Some "old");
         Blob "tweets/2025-03-28_09-30-00.json" (Some "new");
         Blob "tweets/2025-03-27_18-45-10.json" (Some "mid")] /\
    (forall b', b' ∈ [Blob "tweets/2025-03-27_12-00-00.json" (Some "old");
                      Blob "tweets/2025-03-28_09-30-00.json" (Some "new");
                      Blob "tweets/2025-03-27_18-45-10.json" (Some "mid")] ->
       String.leb (blob_name b') (blob_name b) = true) /\
    blob_text b = Some text /\
    json_loads text =
      Some (fst (SentimentPipeline.extract_from_gcs cfg0 list_blobs json_loads "tweets" world0)).
Proof.
  cbv zeta.
  apply (extract_reads_blob_with_greatest_name cfg0
           (fun _ _ : string =>
              Some [Blob "tweets/2025-03-27_12-00-00.json" (Some "old");
                    Blob "tweets/2025-03-28_09-30-00.json" (Some "new");
                    Blob "tweets/2025-03-27_18-45-10.json" (Some "mid")])
           (fun text : string =>
              if String.eqb text "new" then Some [raw_record] else Some [])
           "tweets" world0).
  - reflexivity.
  - vm_compute. discriminate.
Defined.

(** ** Records without a ["timestamp"] entry *)

(** X21: [transform] returns no row for a batch in which no record has a
    ["timestamp"] entry, whatever the other entries, the scorer and the
    date parser are: the analyzer looks for the time under that key
    only. *)
Theorem transform_drops_records_without_timestamp polarity iso_to_epoch raw_data w :
  (forall item, item ∈ raw_data -> item !! "timestamp" = None) ->
  fst (SentimentPipeline.transform polarity iso_to_epoch raw_data w) = [].
Proof.
  intros H. rewrite (proj2 (transform_world _ _ _ _)).
  induction raw_data as [| item rest IH]; [reflexivity |].
  change (omap (item_result polarity iso_to_epoch) (item :: rest)) with
    (match item_result polarity iso_to_epoch item with
     | Some s => s :: omap (item_result polarity iso_to_epoch) rest
     | None => omap (item_result polarity iso_to_epoch) rest
     end).
  assert (Hi : item_result polarity iso_to_epoch item = None).
  { unfold item_result, SentimentAnalyzer.analyze_item.
    rewrite (H item) by left. reflexivity. }
  rewrite Hi. apply IH. intros item' Hin. apply H. now right.
Qed.

Lemma transform_drops_records_without_timestamp_witness :
  fst (SentimentPipeline.transform (fun _ => Polarity 0.5%float) (fun _ => Some 1743076800)
         fetched_records world0) = [].
Proof.
  apply (transform_drops_records_without_timestamp (fun _ => Polarity 0.5%float)
           (fun _ => Some 1743076800) fetched_records world0).
  intros item Hin. unfold fetched_records in Hin.
  apply elem_of_cons in Hin. destruct Hin as [-> | Hin]; [reflexivity |].
  apply list_elem_of_singleton in Hin. subst item. reflexivity.
Defined.
